(** * lcov-pull-request-report: coverage aggregation and threshold evaluation

    A shallow embedding of the pure part of [src/index.js]: [sumLcov],
    [isPassed], [calculateLineCoverage], [checkAllIndividualFilesPassed], the
    pass/fail decision taken in [run], and the Markdown renderers.

    Data, as the code has it:
    - a coverage record is the object produced by the LCOV parser: a [file]
      path and three counter pairs [lines], [functions], [branches], each with
      [found] and [hit].  The counts are JavaScript numbers holding exact
      non-negative integers; they are modelled as [N].  Nothing in the type
      relates [hit] to [found].
    - every other number (a percentage, a configured minimum) is an IEEE 754
      binary64 value, modelled by the kernel's primitive [float], so that
      [*], [/] and [>=] round and compare as they do in JavaScript.  A count
      enters floating-point arithmetic through [Number], which is exact on
      the safe integers (up to [MAX_SAFE_INTEGER]), the range in which the
      sums of [sumLcov] are exact in JavaScript as well.
    - the changed-file set is a JavaScript [Set] of path strings, a
      [gset string].
    - [undefined] is [None].

    The module [Js], further down, holds the same functions over records as
    the runtime has them: counts that are doubles, [null] or [undefined],
    counter objects that may be missing, additions that round, property
    reads that throw.  On integer counts with safe totals the two compute
    the same. *)

From Stdlib Require Import ZArith NArith Lia Floats Uint63 Permutation.
From stdpp Require Import gmap strings list.

Local Open Scope N_scope.

(** ** Records *)

Record Counter : Type := mkCounter { found : N; hit : N }.

Record LcovFile : Type := mkLcovFile {
  file : string;
  lines : Counter;
  functions : Counter;
  branches : Counter
}.

(** ** JavaScript numbers *)

(** The double that holds the count [n]. *)
Definition Number (n : N) : float :=
  PrimFloat.of_uint63 (Uint63.of_Z (Z.of_N n)).

(** [Number.MAX_SAFE_INTEGER], 2^53 - 1. *)
Definition MAX_SAFE_INTEGER : N := 9007199254740991.

Definition isSafeInteger (n : N) : bool := n <=? MAX_SAFE_INTEGER.

(** [ToBoolean] on a number: [0], [-0] and [NaN] are falsy. *)
Definition truthy (x : float) : bool :=
  negb (PrimFloat.eqb x 0 || PrimFloat.is_nan x).

(** [x || 0]. *)
Definition orZero (x : float) : float := if truthy x then x else 0%float.

(** [x >= y]. *)
Definition geb (x y : float) : bool := PrimFloat.leb y x.

(** ** Threshold evaluation *)

(** [calculateLineCoverage(lines)] *)
Definition calculateLineCoverage (l : Counter) : float :=
  if found l =? 0 then 0%float
  else (Number (hit l) * 100 / Number (found l))%float.

(** [isPassed(data, minimumCoverage)] *)
Definition isPassed (data : option LcovFile) (minimumCoverage : float) : bool :=
  let coverage :=
    match data with
    | None => 0%float
    | Some d =>
        if found (lines d) =? 0 then 0%float
        else (Number (hit (lines d)) * 100 / Number (found (lines d)))%float
    end in
  geb coverage minimumCoverage.

(** [checkAllIndividualFilesPassed(files, minimumCoverage)] *)
Definition checkAllIndividualFilesPassed
    (files : option (list LcovFile)) (minimumCoverage : float) : bool :=
  match files with
  | None => true
  | Some fs =>
      if (N.of_nat (length fs) =? 0) || negb (truthy minimumCoverage) then true
      else forallb (fun f => geb (calculateLineCoverage (lines f)) minimumCoverage) fs
  end.

(** ** Aggregation *)

(** [files.has(path)] *)
Definition has (files : gset string) (path : string) : bool :=
  bool_decide (path ∈ files).

(** [data.filter((item) => files.has(item.file))] when a set is given. *)
Definition filterFiles (data : list LcovFile) (files : option (gset string))
    : list LcovFile :=
  match files with
  | Some fs => List.filter (fun item => has fs (file item)) data
  | None => data
  end.

(** One step of the reduction in [sumLcov]: a deep copy of [total] whose six
    counters have the counters of [f] added. *)
Definition addCounters (total f : LcovFile) : LcovFile :=
  {| file := file total;
     lines := {| found := found (lines total) + found (lines f);
                 hit := hit (lines total) + hit (lines f) |};
     functions := {| found := found (functions total) + found (functions f);
                     hit := hit (functions total) + hit (functions f) |};
     branches := {| found := found (branches total) + found (branches f);
                    hit := hit (branches total) + hit (branches f) |} |}.

(** [sumLcov(data, files)].  [reduce] is called without an initial value: the
    first record is the first accumulator. *)
Definition sumLcov (data : list LcovFile) (files : option (gset string))
    : option LcovFile :=
  match filterFiles data files with
  | [] => None
  | first :: rest => Some (fold_left addCounters rest first)
  end.

(** ** The decision taken in [run] *)

(** The values [run] computes between parsing and rendering. *)
Record Evaluation : Type := mkEvaluation {
  allFilesMinimumCoverage : float;
  changedFilesMinimumCoverage : float;
  allFilesLcov : option LcovFile;
  allFilesPassed : bool;
  changedFilesLcov : option LcovFile;
  hasChangedFiles : bool;
  changedFilesPassed : bool;
  changedFilesData : list LcovFile;
  allIndividualFilesPassed : bool;
  bothPassed : bool
}.

(** Lines 16-35 of [run].  [allFilesInput] and [changedFilesInput] are the
    results of [parseFloat] on the two configured minimums. *)
Definition evaluate (data : list LcovFile) (changedFiles : gset string)
    (allFilesInput changedFilesInput : float) : Evaluation :=
  let allFilesMinimumCoverage := orZero allFilesInput in
  let changedFilesMinimumCoverage := orZero changedFilesInput in
  let allFilesLcov := sumLcov data None in
  let allFilesPassed := isPassed allFilesLcov allFilesMinimumCoverage in
  let changedFilesLcov := sumLcov data (Some changedFiles) in
  let hasChangedFiles := bool_decide (changedFilesLcov <> None) in
  let changedFilesPassed := isPassed changedFilesLcov changedFilesMinimumCoverage in
  let changedFilesData := List.filter (fun item => has changedFiles (file item)) data in
  let allIndividualFilesPassed :=
    checkAllIndividualFilesPassed (Some changedFilesData) changedFilesMinimumCoverage in
  let bothPassed :=
    allFilesPassed && (negb hasChangedFiles || (changedFilesPassed && allIndividualFilesPassed)) in
  mkEvaluation allFilesMinimumCoverage changedFilesMinimumCoverage
    allFilesLcov allFilesPassed changedFilesLcov hasChangedFiles changedFilesPassed
    changedFilesData allIndividualFilesPassed bothPassed.

(** The message [run] hands to [core.setFailed] after the evaluation, if any
    (lines 36-38). *)
Definition setFailed (ev : Evaluation) : option string :=
  if bothPassed ev then None else Some "Coverage is below the minimum"%string.

(** ** Rendering *)

Definition nl : string := String (Ascii.ascii_of_nat 10) EmptyString.

(** [renderPassed(isPassed)] *)
Definition renderPassed (isPassed : bool) : string :=
  if isPassed then "✅"%string else "❌"%string.

(** [renderCommentId(title)] *)
Definition renderCommentId (title : string) : string :=
  "[lcov-comment-id]: <> (" +:+ title +:+ ")" +:+ nl.

(** [renderCommentHeader(title, isPassed)] *)
Definition renderCommentHeader (title : string) (isPassed : bool) : string :=
  "## LCOV Report" +:+ (if bool_decide (title <> EmptyString) then " - " +:+ title else EmptyString)
    +:+ " " +:+ renderPassed isPassed +:+ nl.

(** [renderSectionHeader(title)] *)
Definition renderSectionHeader (title : string) : string :=
  "### " +:+ title +:+ nl.

Section Render.
(** What the renderers take from the JavaScript runtime and from the
    [markdown-table] package: the decimal text of a number
    ([Number.prototype.toString]), [toFixed(1)], [path.basename] and
    [markdownTable]. *)
Variable numberToString : float -> string.
Variable toFixed1 : float -> string.
Variable basename : string -> string.
Variable markdownTable : list (list string) -> string.

(** [renderLcovPercentage(lcov)] *)
Definition renderLcovPercentage (lcov : Counter) : string :=
  if found lcov =? 0 then "N/A"%string
  else
    let percentage := toFixed1 (Number (hit lcov) * 100 / Number (found lcov))%float in
    numberToString (Number (hit lcov)) +:+ "/" +:+ numberToString (Number (found lcov))
      +:+ " (" +:+ percentage +:+ "%)".

(** [renderLcovOverall(data, minimumCoverage, isPassed)] *)
Definition renderLcovOverall (data : option LcovFile) (minimumCoverage : float)
    (isPassed : bool) : string :=
  match data with
  | None => "N/A" +:+ nl
  | Some d =>
      "- Lines: " +:+ renderLcovPercentage (lines d) +:+ " " +:+ renderPassed isPassed
        +:+ " (Minimum coverage is " +:+ numberToString minimumCoverage +:+ "%)" +:+ nl
        +:+ "- Functions: " +:+ renderLcovPercentage (functions d) +:+ nl
        +:+ "- Branches: " +:+ renderLcovPercentage (branches d) +:+ nl
        +:+ nl
  end.

(** The status computed for one row of the file table (line 203). *)
Definition filePassed (item : LcovFile) (minimumCoverage : float) : bool :=
  let lineCoverage := calculateLineCoverage (lines item) in
  if truthy minimumCoverage then geb lineCoverage minimumCoverage else true.

(** The row pushed for one record (lines 205-213). *)
Definition fileRow (minimumCoverage : float) (item : LcovFile) : list string :=
  [ basename (file item);
    renderLcovPercentage (lines item);
    renderLcovPercentage (functions item);
    renderLcovPercentage (branches item);
    renderPassed (filePassed item minimumCoverage) ].

Definition tableHeader : list string :=
  [ "File"; "Lines"; "Functions"; "Branches"; "Status" ]%string.

(** [renderLcovFiles(data, files, minimumCoverage)] *)
Definition renderLcovFiles (data : list LcovFile) (files : option (gset string))
    (minimumCoverage : float) : string :=
  let data := filterFiles data files in
  if N.of_nat (length data) =? 0 then EmptyString
  else
    let output := EmptyString in
    let output :=
      if truthy minimumCoverage
      then output +:+ "#### Files (Minimum Coverage: "
             +:+ numberToString minimumCoverage +:+ "%)" +:+ nl +:+ nl
      else output in
    let table := tableHeader :: map (fileRow minimumCoverage) data in
    output +:+ markdownTable table +:+ nl +:+ nl.

(** The comment assembled in [run] (lines 40-48). *)
Definition renderComment (commentTitle : string) (data : list LcovFile)
    (changedFiles : gset string) (ev : Evaluation) : string :=
  let commentId := renderCommentId commentTitle in
  commentId
    +:+ renderCommentHeader commentTitle (bothPassed ev)
    +:+ renderSectionHeader "All Files"
    +:+ renderLcovOverall (allFilesLcov ev) (allFilesMinimumCoverage ev) (allFilesPassed ev)
    +:+ renderSectionHeader "Changed Files"
    +:+ renderLcovOverall (changedFilesLcov ev) (changedFilesMinimumCoverage ev)
          (changedFilesPassed ev)
    +:+ renderLcovFiles data (Some changedFiles) (changedFilesMinimumCoverage ev).
End Render.

(** ** Aggregation over the object store

    The records of [data] are objects; the array holds references to them, and
    so does the array that [filter] returns.  A record, with its three nested
    counter objects, is one cell of the store.  [JSON.parse(JSON.stringify(total))]
    allocates a new cell holding a copy of [total]; no function of the file
    assigns to a field of an existing cell other than that fresh copy. *)

Abbreviation store := (gmap positive LcovFile).

(** A new object holding [v]. *)
Definition alloc (h : store) (v : LcovFile) : store * positive :=
  let l := fresh (dom h) in (<[l := v]> h, l).

(** [data.filter((item) => files.has(item.file))] over references; [None] when
    a reference is dangling. *)
Fixpoint filterRefs (h : store) (fs : gset string) (data : list positive)
    : option (list positive) :=
  match data with
  | [] => Some []
  | l :: data' =>
      match h !! l, filterRefs h fs data' with
      | Some item, Some kept => Some (if has fs (file item) then l :: kept else kept)
      | _, _ => None
      end
  end.

(** The callback of [reduce]: copy [total], add the counters of [f] to the
    copy, return the copy. *)
Definition reduceStep (h : store) (total f : positive) : option (store * positive) :=
  match h !! total, h !! f with
  | Some t, Some v => Some (alloc h (addCounters t v))
  | _, _ => None
  end.

(** [rest.reduce(callback, total)]: with nothing left, the accumulator itself
    is returned. *)
Fixpoint reduceRefs (h : store) (total : positive) (rest : list positive)
    : option (store * positive) :=
  match rest with
  | [] => Some (h, total)
  | f :: rest' =>
      match reduceStep h total f with
      | Some (h', total') => reduceRefs h' total' rest'
      | None => None
      end
  end.

(** The array [sumLcov] and [renderLcovFiles] go on with: the filtered one
    when a set is given, the argument itself otherwise. *)
Definition keptRefs (h : store) (data : list positive) (files : option (gset string))
    : option (list positive) :=
  match files with
  | Some fs => filterRefs h fs data
  | None => Some data
  end.

(** [sumLcov(data, files)] over references: the store afterwards and the
    reference returned ([None] for [undefined]). *)
Definition sumLcovRefs (h : store) (data : list positive) (files : option (gset string))
    : option (store * option positive) :=
  match keptRefs h data files with
  | None => None
  | Some [] => Some (h, None)
  | Some (first :: rest) =>
      match reduceRefs h first rest with
      | Some (h', l) => Some (h', Some l)
      | None => None
      end
  end.

(** The records an array of references denotes. *)
Fixpoint derefAll (h : store) (data : list positive) : option (list LcovFile) :=
  match data with
  | [] => Some []
  | l :: data' =>
      match h !! l, derefAll h data' with
      | Some v, Some vs => Some (v :: vs)
      | _, _ => None
      end
  end.

(** ** Vocabulary of the properties *)

(** The six counters of an aggregate, without the fields the copy of the first
    record carries along. *)
Definition counters (agg : option LcovFile) : option (Counter * Counter * Counter) :=
  match agg with
  | Some d => Some (lines d, functions d, branches d)
  | None => None
  end.

(** The sum of one counter over a list of records. *)
Definition total (f : LcovFile -> N) (data : list LcovFile) : N :=
  fold_right (fun r acc => f r + acc) 0 data.

(** The three counter pairs obtained by summing each counter over a list. *)
Definition totals (data : list LcovFile) : Counter * Counter * Counter :=
  ( mkCounter (total (fun r => found (lines r)) data) (total (fun r => hit (lines r)) data),
    mkCounter (total (fun r => found (functions r)) data)
              (total (fun r => hit (functions r)) data),
    mkCounter (total (fun r => found (branches r)) data)
              (total (fun r => hit (branches r)) data) ).

(** Both line counts of a record are safe integers, so that [Number] is exact
    on them. *)
Definition safeLines (r : LcovFile) : bool :=
  isSafeInteger (found (lines r)) && isSafeInteger (hit (lines r)).



(** The line coverage of a record meets a minimum. *)
Definition meetsMinimum (r : LcovFile) (minimumCoverage : float) : bool :=
  geb (calculateLineCoverage (lines r)) minimumCoverage.

(** A small report and the changed-file set of a pull request, for the
    instances below. *)
Definition sampleData : list LcovFile :=
  [ mkLcovFile "/w/src/a.js" (mkCounter 100 80) (mkCounter 4 4) (mkCounter 2 1);
    mkLcovFile "/w/src/b.js" (mkCounter 10 5) (mkCounter 1 1) (mkCounter 0 0) ].

Definition sampleChanged : gset string := {[ "/w/src/b.js"%string ]}.

(** A record that claims more lines hit than found. *)
Definition overCountedRecord : LcovFile :=
  mkLcovFile "/w/src/c.js" (mkCounter 100 150) (mkCounter 1 1) (mkCounter 0 0).

(** A record with no instrumented line. *)
Definition emptyRecord : LcovFile :=
  mkLcovFile "/w/src/empty.js" (mkCounter 0 0) (mkCounter 0 0) (mkCounter 0 0).

(** A store holding the two records of [sampleData], and the array of
    references to them. *)
Definition sampleStore : store :=
  <[ 2%positive := mkLcovFile "/w/src/b.js" (mkCounter 10 5) (mkCounter 1 1) (mkCounter 0 0) ]>
    (<[ 1%positive := mkLcovFile "/w/src/a.js" (mkCounter 100 80) (mkCounter 4 4) (mkCounter 2 1) ]> ∅).

Definition sampleRefs : list positive := [1%positive; 2%positive].

(** A value of the float specification that is a zero, a finite number or an
    infinity with a clear sign bit. *)
Definition sf_nonneg (x : spec_float) : bool :=
  match x with
  | S754_zero s | S754_infinity s | S754_finite s _ _ => negb s
  | S754_nan => false
  end.

(** ** The glue around the evaluation

    What [run] does with its collaborators.  The answers of the hosting API
    (the file names of the comparison, the comments of the pull request) and
    the records of the LCOV parser are inputs; the call [postComment] ends
    with is its result. *)

(** A comment of the pull request, as [listComments] returns it. *)
Record Comment : Type := mkComment { comment_id : N; body : string }.

(** The request [postComment] ends with. *)
Inductive PostAction : Type :=
  | CreateComment (text : string)
  | UpdateComment (target : N) (text : string).

(** [s.startsWith(p)] *)
Definition startsWith (s p : string) : bool := String.prefix p s.

(** [postComment(octokit, commentId, comment)], given the comments
    [getComments] returned. *)
Definition postComment (comments : list Comment) (commentId comment : string)
    : PostAction :=
  match List.find (fun c => startsWith (body c) commentId) comments with
  | None => CreateComment comment
  | Some existingComment => UpdateComment (comment_id existingComment) comment
  end.

Section Paths.
(** [path.resolve(workingDirectory, name)]. *)
Variable resolve : string -> string -> string.

(** [getChangedFiles(octokit, workingDirectory)], given the event name and the
    file names of the comparison. *)
Definition getChangedFiles (eventName : string) (filenames : list string)
    (workingDirectory : string) : gset string :=
  if bool_decide (eventName <> "pull_request"%string) then ∅
  else
    let fileNames := map (fun filename => resolve workingDirectory filename) filenames in
    list_to_set fileNames.

(** The callback of [parseLcov]: every record gets its path resolved. *)
Definition parseLcov (parsed : list LcovFile) (workingDirectory : string)
    : list LcovFile :=
  map (fun item =>
         {| file := resolve workingDirectory (file item);
            lines := lines item;
            functions := functions item;
            branches := branches item |}) parsed.
End Paths.

(** What a run leaves behind: the message given to [core.setFailed], the
    comment, the request sent for it, and whether the artifact is uploaded. *)
Record RunResult : Type := mkRunResult {
  failure : option string;
  comment : string;
  posted : option PostAction;
  uploaded : bool
}.

Section Run.
Variable numberToString : float -> string.
Variable toFixed1 : float -> string.
Variable basename : string -> string.
Variable markdownTable : list (list string) -> string.
Variable resolve : string -> string -> string.

(** [run()], when no collaborator throws. *)
Definition run (commentTitle workingDirectory : string)
    (allFilesInput changedFilesInput : float) (artifactName eventName : string)
    (parsed : list LcovFile) (filenames : list string) (comments : list Comment)
    : RunResult :=
  let data := parseLcov resolve parsed workingDirectory in
  let changedFiles := getChangedFiles resolve eventName filenames workingDirectory in
  let ev := evaluate data changedFiles allFilesInput changedFilesInput in
  let commentId := renderCommentId commentTitle in
  let comment :=
    renderComment numberToString toFixed1 basename markdownTable
      commentTitle data changedFiles ev in
  {| failure := setFailed ev;
     comment := comment;
     posted :=
       if bool_decide (eventName = "pull_request"%string)
       then Some (postComment comments commentId comment)
       else None;
     uploaded := bool_decide (artifactName <> EmptyString) |}.
End Run.

(** ** Further vocabulary *)




(** The string holds no line feed. *)
Fixpoint noNewline (s : string) : bool :=
  match s with
  | EmptyString => true
  | String c s' => negb (Ascii.eqb c (Ascii.ascii_of_nat 10)) && noNewline s'
  end.

(** ** The records as the JavaScript runtime holds them

    Above, a record always has its three counter objects and every count is
    an integer.  Here nothing is assumed of a record: a counter object may be
    missing, a count may be any number, [null] or [undefined], the additions
    of [sumLcov] are additions of doubles, and reading a property of a
    missing object throws.  [ofRecord], after the module, gives the record of
    this kind that the parser builds for a record of the kind above. *)

Module Js.

(** A value read from a counter: [undefined] (also for a missing property),
    [null], or a number. *)
Inductive value : Type :=
  | Undefined
  | Null
  | Num (x : float).

(** [ToNumber] *)
Definition toNumber (v : value) : float :=
  match v with
  | Undefined => nan
  | Null => 0%float
  | Num x => x
  end.

(** [a + b] on such values. *)
Definition add (a b : value) : value := Num (toNumber a + toNumber b).

(** [v == 0] and [v === 0]: they agree on such values. *)
Definition isZero (v : value) : bool :=
  match v with
  | Num x => PrimFloat.eqb x 0
  | Undefined | Null => false
  end.

Record counter : Type := mkCounter { found : value; hit : value }.

Record record : Type := mkRecord {
  file : string;
  lines : option counter;
  functions : option counter;
  branches : option counter
}.

(** The [TypeError] for reading [property] of [undefined]. *)
Inductive error : Type := TypeError (property : string).

Inductive result (A : Type) : Type :=
  | Ok (a : A)
  | Throw (e : error).
Arguments Ok {A} a.
Arguments Throw {A} e.

#[global] Instance result_bind : MBind result :=
  fun A B k r => match r with Ok a => k a | Throw e => Throw e end.

(** [o.property], for a counter object [o] that may be missing. *)
Definition read (property : string) (o : option counter) : result counter :=
  match o with
  | Some c => Ok c
  | None => Throw (TypeError property)
  end.

(** [JSON.parse(JSON.stringify(v))]: a finite number comes back (without the
    sign of a zero), any other number comes back as [null], and a property
    that is [undefined] is left out. *)
Definition jsonValue (v : value) : value :=
  match v with
  | Undefined => Undefined
  | Null => Null
  | Num x =>
      if PrimFloat.is_finite x
      then Num (if PrimFloat.eqb x 0 then 0%float else x)
      else Null
  end.

Definition jsonCounter (c : counter) : counter :=
  {| found := jsonValue (found c); hit := jsonValue (hit c) |}.

Definition jsonRecord (r : record) : record :=
  {| file := file r;
     lines := jsonCounter <$> lines r;
     functions := jsonCounter <$> functions r;
     branches := jsonCounter <$> branches r |}.

(** [newTotal.p.found += file.p.found; newTotal.p.hit += file.p.hit] for one
    of the three properties [p]. *)
Definition addPair (total f : option counter) : result counter :=
  t ← read "found" total;
  v ← read "found" f;
  Ok {| found := add (found t) (found v); hit := add (hit t) (hit v) |}.

(** The callback of [reduce] in [sumLcov]. *)
Definition callback (total f : record) : result record :=
  let newTotal := jsonRecord total in
  l ← addPair (lines newTotal) (lines f);
  fn ← addPair (functions newTotal) (functions f);
  b ← addPair (branches newTotal) (branches f);
  Ok {| file := file newTotal; lines := Some l; functions := Some fn; branches := Some b |}.

(** [rest.reduce(callback, total)] *)
Fixpoint reduce (rest : list record) (total : record) : result record :=
  match rest with
  | [] => Ok total
  | f :: rest' => newTotal ← callback total f; reduce rest' newTotal
  end.

Definition filterFiles (data : list record) (files : option (gset string)) : list record :=
  match files with
  | Some fs => List.filter (fun item => has fs (file item)) data
  | None => data
  end.

(** [sumLcov(data, files)] *)
Definition sumLcov (data : list record) (files : option (gset string))
    : result (option record) :=
  match filterFiles data files with
  | [] => Ok None
  | first :: rest => sum ← reduce rest first; Ok (Some sum)
  end.

(** [hit * 100 / found] *)
Definition percentage (c : counter) : float :=
  (toNumber (hit c) * 100 / toNumber (found c))%float.

(** [isPassed(data, minimumCoverage)] *)
Definition isPassed (data : option record) (minimumCoverage : float) : result bool :=
  match data with
  | None => Ok (geb 0 minimumCoverage)
  | Some d =>
      l ← read "found" (lines d);
      let coverage := if isZero (found l) then 0%float else percentage l in
      Ok (geb coverage minimumCoverage)
  end.

(** [calculateLineCoverage(lines)] *)
Definition calculateLineCoverage (o : option counter) : result float :=
  l ← read "found" o;
  Ok (if isZero (found l) then 0%float else percentage l).

(** [files.every(file => calculateLineCoverage(file.lines) >= minimumCoverage)]:
    the first record that fails ends the loop. *)
Fixpoint every (files : list record) (minimumCoverage : float) : result bool :=
  match files with
  | [] => Ok true
  | f :: files' =>
      lineCoverage ← calculateLineCoverage (lines f);
      if geb lineCoverage minimumCoverage then every files' minimumCoverage else Ok false
  end.

(** [checkAllIndividualFilesPassed(files, minimumCoverage)] *)
Definition checkAllIndividualFilesPassed (files : option (list record))
    (minimumCoverage : float) : result bool :=
  match files with
  | None => Ok true
  | Some fs =>
      if (N.of_nat (length fs) =? 0) || negb (truthy minimumCoverage) then Ok true
      else every fs minimumCoverage
  end.

Record Evaluation : Type := mkEvaluation {
  allFilesLcov : option record;
  allFilesPassed : bool;
  changedFilesLcov : option record;
  hasChangedFiles : bool;
  changedFilesPassed : bool;
  changedFilesData : list record;
  allIndividualFilesPassed : bool;
  bothPassed : bool
}.

(** Lines 16-35 of [run]. *)
Definition evaluate (data : list record) (changedFiles : gset string)
    (allFilesInput changedFilesInput : float) : result Evaluation :=
  let allFilesMinimumCoverage := orZero allFilesInput in
  let changedFilesMinimumCoverage := orZero changedFilesInput in
  allFilesLcov ← sumLcov data None;
  allFilesPassed ← isPassed allFilesLcov allFilesMinimumCoverage;
  changedFilesLcov ← sumLcov data (Some changedFiles);
  let hasChangedFiles := bool_decide (changedFilesLcov <> None) in
  changedFilesPassed ← isPassed changedFilesLcov changedFilesMinimumCoverage;
  let changedFilesData := List.filter (fun item => has changedFiles (file item)) data in
  allIndividualFilesPassed ←
    checkAllIndividualFilesPassed (Some changedFilesData) changedFilesMinimumCoverage;
  let bothPassed :=
    allFilesPassed && (negb hasChangedFiles || (changedFilesPassed && allIndividualFilesPassed)) in
  Ok (mkEvaluation allFilesLcov allFilesPassed changedFilesLcov hasChangedFiles
        changedFilesPassed changedFilesData allIndividualFilesPassed bothPassed).

(** What [core.setFailed] is called with. *)
Inductive report : Type :=
  | Message (text : string)
  | ErrorMessage (e : error).

(** The calls of [core.setFailed] that lines 25-38 and the [catch] of lines
    61-63 make for the evaluation: the message of the error when it throws,
    the coverage message when the verdict is false. *)
Definition setFailed (r : result Evaluation) : list report :=
  match r with
  | Throw e => [ErrorMessage e]
  | Ok ev =>
      if bothPassed ev then [] else [Message "Coverage is below the minimum"]
  end.


(** The counters of an aggregate. *)
Definition counters (agg : option record)
    : option (option counter * option counter * option counter) :=
  (fun d => (lines d, functions d, branches d)) <$> agg.

End Js.

(** The record the parser builds for the counts of a typed record. *)
Definition ofCounter (c : Counter) : Js.counter :=
  {| Js.found := Js.Num (Number (found c)); Js.hit := Js.Num (Number (hit c)) |}.

Definition ofRecord (r : LcovFile) : Js.record :=
  {| Js.file := file r;
     Js.lines := Some (ofCounter (lines r));
     Js.functions := Some (ofCounter (functions r));
     Js.branches := Some (ofCounter (branches r)) |}.

(** Both counts of the pair are safe integers. *)
Definition safeCounter (c : Counter) : bool :=
  isSafeInteger (found c) && isSafeInteger (hit c).

(** The six counts of the record are safe integers. *)
Definition safeRecord (r : LcovFile) : bool :=
  safeCounter (lines r) && safeCounter (functions r) && safeCounter (branches r).

(** The six totals of the list are safe integers. *)
Definition safeTotals (data : list LcovFile) : bool :=
  let '(l, f, b) := totals data in safeCounter l && safeCounter f && safeCounter b.

(** Three records whose line counts sum differently in two orders. *)
Definition bigRecords : list Js.record :=
  let one (path : string) (n : float) :=
    {| Js.file := path;
       Js.lines := Some {| Js.found := Js.Num n; Js.hit := Js.Num 0 |};
       Js.functions := Some {| Js.found := Js.Num 0; Js.hit := Js.Num 0 |};
       Js.branches := Some {| Js.found := Js.Num 0; Js.hit := Js.Num 0 |} |} in
  [ one "/w/x.js" 9007199254740991%float; one "/w/y.js" 2%float;
    one "/w/z.js" 1%float ].



(** The binary64 value of a positive integer below 2^53: the integer shifted
    to a mantissa of 53 digits. *)
Definition canonical (p : positive) : spec_float :=
  match (53 - Zpos (digits2_pos p))%Z with
  | Zpos k => S754_finite false (Pos.iter xO p k) (Zneg k)
  | _ => S754_finite false p 0
  end.

(** * Facts about binary64 arithmetic

    Signs only: a count converts to a non-negative double, a safe positive
    count to a finite one, and neither the product by [100] nor the quotient
    by a positive finite double can produce [NaN] or a negative value. *)

Lemma Prim2SF_zero : Prim2SF 0%float = S754_zero false.
Proof. reflexivity. Qed.

(** Case analysis on the class and the sign of a specified float; the cases
    that compute to an absurd hypothesis or to a trivial goal are closed. *)
Ltac by_class_and_sign x :=
  destruct x as [[]|[]| |[] ? ?]; simpl; try discriminate; try reflexivity.

Lemma leb_zero_nonneg (x : float) :
  sf_nonneg (Prim2SF x) = true -> (0 <=? x)%float = true.
Proof.
  rewrite FloatAxioms.leb_spec, Prim2SF_zero. by_class_and_sign (Prim2SF x).
Qed.

Lemma ltb_zero_leb (m : float) :
  (0 <? m)%float = true -> (m <=? 0)%float = false.
Proof.
  rewrite FloatAxioms.ltb_spec, FloatAxioms.leb_spec, Prim2SF_zero.
  by_class_and_sign (Prim2SF m).
Qed.

Lemma shr_1_nonneg mrs : (0 <= shr_m mrs)%Z -> (0 <= shr_m (shr_1 mrs))%Z.
Proof.
  destruct mrs as [m r s]; simpl.
  destruct m as [|p|p]; simpl; try lia.
  destruct p; simpl; lia.
Qed.

Lemma iter_pos_invariant {A} (P : A -> Prop) (f : A -> A) :
  (forall x, P x -> P (f x)) -> forall n x, P x -> P (SpecFloat.iter_pos f n x).
Proof.
  intros Hf n; induction n as [n IH|n IH|]; simpl; intros x Hx; auto.
Qed.

Lemma shr_nonneg mrs e n :
  (0 <= shr_m mrs)%Z -> (0 <= shr_m (fst (shr mrs e n)))%Z.
Proof.
  intros H; destruct n; simpl; auto.
  apply (iter_pos_invariant (fun r => 0 <= shr_m r)%Z); auto using shr_1_nonneg.
Qed.

Lemma shr_m_of_loc m l : shr_m (shr_record_of_loc m l) = m.
Proof. destruct l as [|[]]; reflexivity. Qed.

Lemma shr_fexp_nonneg m e l :
  (0 <= m)%Z -> (0 <= shr_m (fst (shr_fexp prec emax m e l)))%Z.
Proof.
  intros H; unfold shr_fexp. apply shr_nonneg. now rewrite shr_m_of_loc.
Qed.

Lemma round_nearest_even_nonneg m l :
  (0 <= m)%Z -> (0 <= round_nearest_even m l)%Z.
Proof.
  intros H; destruct l as [|[]]; simpl; try lia.
  destruct (Z.even m); lia.
Qed.

Lemma binary_round_aux_nonneg m e l :
  (0 <= m)%Z -> sf_nonneg (binary_round_aux prec emax false m e l) = true.
Proof.
  intros H; unfold binary_round_aux.
  pose proof (shr_fexp_nonneg m e l H) as H1.
  destruct (shr_fexp prec emax m e l) as [mrs' e']; simpl in H1.
  pose proof (shr_fexp_nonneg _ e' loc_Exact
                (round_nearest_even_nonneg _ (loc_of_shr_record mrs') H1)) as H2.
  destruct (shr_fexp prec emax _ e' loc_Exact) as [mrs'' e'']; simpl in H2.
  destruct (shr_m mrs'') as [|p|p]; try reflexivity; try lia.
  destruct (e'' <=? emax - prec)%Z; reflexivity.
Qed.

Lemma binary_normalize_nonneg z :
  (0 <= z)%Z -> sf_nonneg (binary_normalize prec emax z 0 false) = true.
Proof.
  intros H; destruct z as [|p|p]; simpl; try reflexivity; try lia.
  unfold binary_round.
  destruct (shl_align _ _ _) as [mz ez].
  apply binary_round_aux_nonneg; lia.
Qed.

Lemma Number_nonneg n : sf_nonneg (Prim2SF (Number n)) = true.
Proof.
  unfold Number. rewrite of_uint63_spec.
  apply binary_normalize_nonneg.
  apply Uint63.to_Z_bounded.
Qed.

Lemma digits2_pos_bound p :
  (2 ^ (Zpos (digits2_pos p) - 1) <= Zpos p < 2 ^ Zpos (digits2_pos p))%Z.
Proof.
  induction p as [p IH|p IH|]; simpl digits2_pos.
  - rewrite Pos2Z.inj_succ.
    replace (Z.succ (Zpos (digits2_pos p)) - 1)%Z with (Z.succ (Zpos (digits2_pos p) - 1))%Z by lia.
    rewrite !Z.pow_succ_r by lia. lia.
  - rewrite Pos2Z.inj_succ.
    replace (Z.succ (Zpos (digits2_pos p)) - 1)%Z with (Z.succ (Zpos (digits2_pos p) - 1))%Z by lia.
    rewrite !Z.pow_succ_r by lia. lia.
  - simpl. lia.
Qed.

Lemma digits2_pos_iter_xO k p :
  digits2_pos (Pos.iter xO p k) = (digits2_pos p + k)%positive.
Proof.
  induction k as [|k IH] using Pos.peano_ind.
  - simpl. lia.
  - rewrite Pos.iter_succ. simpl. rewrite IH. lia.
Qed.

Lemma binary_round_aux_exact mz ez :
  Zpos (digits2_pos mz) = 53%Z -> (-1074 <= ez <= 971)%Z ->
  binary_round_aux prec emax false (Zpos mz) ez loc_Exact = S754_finite false mz ez.
Proof.
  intros Hd He.
  assert (Hs : forall l, shr_fexp prec emax (Zpos mz) ez l
                         = (shr_record_of_loc (Zpos mz) l, ez)).
  { intros l. unfold shr_fexp. simpl Zdigits2. rewrite Hd.
    replace (fexp prec emax (53 + ez) - ez)%Z with 0%Z; [reflexivity|].
    unfold fexp, emin, prec, emax. lia. }
  unfold binary_round_aux. rewrite Hs. simpl. rewrite Hs. simpl.
  replace (ez <=? emax - prec)%Z with true; [reflexivity|].
  symmetry. apply Z.leb_le. unfold emax, prec. lia.
Qed.

Lemma iter_xO_pow k p : Zpos (Pos.iter xO p k) = (Zpos p * 2 ^ Zpos k)%Z.
Proof.
  induction k as [|k IH] using Pos.peano_ind.
  - simpl. lia.
  - rewrite Pos.iter_succ, Pos2Z.inj_succ, Z.pow_succ_r by lia.
    rewrite Pos2Z.inj_xO, IH. lia.
Qed.

Lemma binary_round_safe p :
  (Zpos p < 2 ^ 53)%Z ->
  exists m e, binary_round prec emax false p 0 = S754_finite false m e
              /\ (e <= 0)%Z /\ Zpos m = (Zpos p * 2 ^ (- e))%Z.
Proof.
  intros Hp.
  pose proof (digits2_pos_bound p) as [Hlo _].
  assert (Hd : (Zpos (digits2_pos p) <= 53)%Z).
  { destruct (Z_le_gt_dec (Zpos (digits2_pos p)) 53) as [|Hgt]; [assumption|exfalso].
    assert (2 ^ 53 <= 2 ^ (Zpos (digits2_pos p) - 1))%Z by (apply Z.pow_le_mono_r; lia).
    lia. }
  unfold binary_round, shl_align.
  replace (fexp prec emax (Zpos (digits2_pos p) + 0) - 0)%Z
    with (Zpos (digits2_pos p) - 53)%Z
    by (unfold fexp, emin, prec, emax; lia).
  destruct (Zpos (digits2_pos p) - 53)%Z as [|k|k] eqn:Hk; try lia.
  - replace (fexp prec emax (Zpos (digits2_pos p) + 0)) with 0%Z
      by (unfold fexp, emin, prec, emax; lia).
    exists p, 0%Z. split; [apply binary_round_aux_exact; lia|]. simpl. lia.
  - replace (fexp prec emax (Zpos (digits2_pos p) + 0)) with (Zneg k)
      by (unfold fexp, emin, prec, emax; lia).
    exists (Pos.iter xO p k), (Zneg k).
    split; [apply binary_round_aux_exact; [rewrite digits2_pos_iter_xO|]; lia|].
    split; [lia|]. apply iter_xO_pow.
Qed.

(** [Number] is exact on a safe positive count: the double is the finite
    positive [m * 2^e] with [m = n * 2^(-e)]. *)
Lemma Number_exact n :
  0 < n -> isSafeInteger n = true ->
  exists m e, Prim2SF (Number n) = S754_finite false m e
              /\ (e <= 0)%Z /\ Zpos m = (Z.of_N n * 2 ^ (- e))%Z.
Proof.
  intros H0 Hmax. apply N.leb_le in Hmax. unfold MAX_SAFE_INTEGER in Hmax.
  unfold Number. rewrite of_uint63_spec, Uint63.of_Z_spec.
  rewrite Z.mod_small by (change wB with 9223372036854775808%Z; lia).
  destruct n as [|p]; [lia|]. simpl.
  apply binary_round_safe. simpl. lia.
Qed.

Lemma SF64mul_100_nonneg x :
  sf_nonneg x = true -> sf_nonneg (SF64mul x (Prim2SF 100%float)) = true.
Proof.
  change (Prim2SF 100%float) with (S754_finite false 7036874417766400 (-46)).
  by_class_and_sign x.
  intros _. apply binary_round_aux_nonneg. lia.
Qed.

Lemma SF64div_finite_nonneg x my ey :
  sf_nonneg x = true -> sf_nonneg (SF64div x (S754_finite false my ey)) = true.
Proof.
  by_class_and_sign x.
  intros _. unfold SFdiv_core_binary.
  set (m' := match _ with Z0 => _ | Zpos _ => _ | Zneg _ => _ end).
  assert (Hm : (0 <= m')%Z).
  { subst m'. destruct (_ - _ - _)%Z; try lia. apply Z.shiftl_nonneg. lia. }
  pose proof (Z.div_pos m' (Zpos my) Hm ltac:(lia)) as Hq.
  unfold Z.div in Hq. destruct (Z.div_eucl m' (Zpos my)) as [q r].
  apply binary_round_aux_nonneg. assumption.
Qed.

Lemma coverage_nonneg (h f : N) :
  0 < f -> isSafeInteger f = true ->
  (0 <=? Number h * 100 / Number f)%float = true.
Proof.
  intros H0 Hmax. apply leb_zero_nonneg.
  rewrite FloatAxioms.div_spec, FloatAxioms.mul_spec.
  destruct (Number_exact f H0 Hmax) as (m & e & -> & _).
  apply SF64div_finite_nonneg, SF64mul_100_nonneg, Number_nonneg.
Qed.

Lemma lineCoverage_nonneg (c : Counter) :
  isSafeInteger (found c) = true -> geb (calculateLineCoverage c) 0 = true.
Proof.
  intros Hsafe. unfold geb, calculateLineCoverage.
  destruct (found c =? 0) eqn:Hz; [reflexivity|].
  apply N.eqb_neq in Hz. apply coverage_nonneg; [lia|assumption].
Qed.

(** * Facts about truthiness *)

Lemma orZero_falsy (x : float) : truthy (orZero x) = false -> orZero x = 0%float.
Proof.
  unfold orZero. destruct (truthy x) eqn:Hx; [congruence|reflexivity].
Qed.

Lemma SFeqb_finite_refl s m e :
  SFeqb (S754_finite s m e) (S754_finite s m e) = true.
Proof.
  unfold SFeqb, SFcompare.
  destruct s; rewrite Z.compare_refl, Pos.compare_cont_refl; reflexivity.
Qed.

Lemma positive_truthy (m : float) : (0 <? m)%float = true -> truthy m = true.
Proof.
  unfold truthy, PrimFloat.is_nan.
  rewrite FloatAxioms.ltb_spec, !FloatAxioms.eqb_spec, Prim2SF_zero.
  by_class_and_sign (Prim2SF m).
  intros _. rewrite SFeqb_finite_refl. reflexivity.
Qed.

(** * Facts about [isPassed] and [sumLcov] *)

Lemma isPassed_Some (d : LcovFile) (minimumCoverage : float) :
  isPassed (Some d) minimumCoverage = meetsMinimum d minimumCoverage.
Proof. reflexivity. Qed.

Lemma sumLcov_None (data : list LcovFile) (files : option (gset string)) :
  sumLcov data files = None <-> filterFiles data files = [].
Proof.
  unfold sumLcov. destruct (filterFiles data files); split; congruence.
Qed.

Lemma has_spec (fs : gset string) (path : string) : has fs path = true <-> path ∈ fs.
Proof. unfold has. apply bool_decide_eq_true. Qed.

Lemma filterFiles_nil (data : list LcovFile) (fs : gset string) :
  filterFiles data (Some fs) = [] <-> forall r, In r data -> file r ∉ fs.
Proof.
  simpl. induction data as [|r data IH]; simpl.
  - split; [intros _ r []|reflexivity].
  - destruct (has fs (file r)) eqn:Hr.
    + split; [discriminate|]. intros H. exfalso.
      apply (H r); [now left|]. now apply has_spec.
    + rewrite IH. split.
      * intros H r' [<-|Hin]; [|now apply H].
        intros Hin. apply has_spec in Hin. congruence.
      * intros H r' Hin. apply H. now right.
Qed.

Lemma hasChangedFiles_iff (data : list LcovFile) (changedFiles : gset string)
    (allFilesInput changedFilesInput : float) :
  hasChangedFiles (evaluate data changedFiles allFilesInput changedFilesInput) = true
  <-> exists r, In r data /\ file r ∈ changedFiles.
Proof.
  unfold evaluate. cbn [hasChangedFiles]. rewrite bool_decide_eq_true, sumLcov_None.
  simpl. split.
  - intros Hne. destruct (List.filter _ data) as [|r rest] eqn:Hf; [congruence|].
    assert (Hin : In r (List.filter (fun item => has changedFiles (file item)) data))
      by (rewrite Hf; now left).
    apply filter_In in Hin as [Hin Hhas]. exists r. split; [assumption|].
    now apply has_spec.
  - intros (r & Hin & Hmem) Hnil.
    assert (Hr : In r (List.filter (fun item => has changedFiles (file item)) data))
      by (apply filter_In; split; [assumption|now apply has_spec]).
    rewrite Hnil in Hr. destruct Hr.
Qed.

Lemma length_eqb_zero {A : Type} (l : list A) :
  (N.of_nat (length l) =? 0) = match l with [] => true | _ :: _ => false end.
Proof. destruct l; [reflexivity|]. apply N.eqb_neq. simpl length. lia. Qed.

Lemma fold_left_addCounters (rest : list LcovFile) (first : LcovFile) :
  counters (Some (fold_left addCounters rest first)) = Some (totals (first :: rest)).
Proof.
  revert first. induction rest as [|r rest IH]; intros first.
  - destruct first as [p [lf lh] [ff fh] [bf bh]]. unfold totals, total. simpl.
    now rewrite !N.add_0_r.
  - cbn [fold_left]. rewrite IH. unfold totals, total, addCounters. simpl.
    now rewrite !N.add_assoc.
Qed.

Lemma sumLcov_counters (data : list LcovFile) (files : option (gset string)) :
  counters (sumLcov data files)
  = match filterFiles data files with
    | [] => None
    | kept => Some (totals kept)
    end.
Proof.
  unfold sumLcov. destruct (filterFiles data files) as [|first rest]; [reflexivity|].
  apply fold_left_addCounters.
Qed.

Lemma total_Permutation (f : LcovFile -> N) (l l' : list LcovFile) :
  Permutation l l' -> total f l = total f l'.
Proof.
  induction 1 as [|x l l' _ IH|x y l|l l' l'' _ IH1 _ IH2]; simpl; lia.
Qed.

Lemma totals_Permutation (l l' : list LcovFile) :
  Permutation l l' -> totals l = totals l'.
Proof.
  intros H. unfold totals.
  now rewrite !(total_Permutation _ l l' H).
Qed.

Lemma filterFiles_Permutation (files : option (gset string)) (l l' : list LcovFile) :
  Permutation l l' -> Permutation (filterFiles l files) (filterFiles l' files).
Proof.
  destruct files as [fs|]; [|trivial]. simpl.
  induction 1 as [|x l l' _ IH|x y l|l l' l'' _ IH1 _ IH2]; simpl.
  - constructor.
  - destruct (has fs (file x)); [now constructor|assumption].
  - destruct (has fs (file x)), (has fs (file y)); try reflexivity. apply perm_swap.
  - now transitivity (List.filter (fun item => has fs (file item)) l').
Qed.

(** * Facts about the object store *)

Lemma reduceStep_spec (h h' : store) (acc f l : positive) :
  reduceStep h acc f = Some (h', l) ->
  exists t v, h !! acc = Some t /\ h !! f = Some v
              /\ (l ∉ dom h) /\ h' = (<[l := addCounters t v]> h).
Proof.
  unfold reduceStep, alloc.
  destruct (h !! acc) as [t|] eqn:Ht; [|discriminate].
  destruct (h !! f) as [v|] eqn:Hv; [|discriminate].
  intros [= <- <-]. exists t, v. repeat split. apply is_fresh.
Qed.

Lemma insert_fresh_lookup (h : store) (l k : positive) (v : LcovFile) :
  l ∉ dom h -> k ∈ dom h -> <[l := v]> h !! k = h !! k.
Proof.
  intros Hl Hk. apply lookup_insert_ne. intros ->. contradiction.
Qed.

Lemma derefAll_dom (h : store) (data : list positive) (vs : list LcovFile) :
  derefAll h data = Some vs -> forall l, In l data -> l ∈ dom h.
Proof.
  revert vs. induction data as [|k data IH]; intros vs; simpl; [intros _ l []|].
  destruct (h !! k) as [v|] eqn:Hk; [|discriminate].
  destruct (derefAll h data) as [vs'|]; [|discriminate].
  intros _ l [<-|Hin]; [apply elem_of_dom; eauto|eapply IH; eauto].
Qed.

Lemma derefAll_frame (h h' : store) (data : list positive) (vs : list LcovFile) :
  (forall l, l ∈ dom h -> h' !! l = h !! l) ->
  derefAll h data = Some vs -> derefAll h' data = Some vs.
Proof.
  intros Hframe. revert vs. induction data as [|k data IH]; intros vs; simpl; [trivial|].
  destruct (h !! k) as [v|] eqn:Hk; [|discriminate].
  destruct (derefAll h data) as [vs'|]; [|discriminate].
  intros [= <-]. rewrite Hframe, Hk by (apply elem_of_dom; eauto).
  now rewrite (IH vs' eq_refl).
Qed.

Lemma reduceRefs_spec (rest : list positive) :
  forall (h : store) (acc : positive) (t : LcovFile) (vs : list LcovFile),
    h !! acc = Some t -> derefAll h rest = Some vs ->
    exists h' l,
      reduceRefs h acc rest = Some (h', l)
      /\ (forall k, k ∈ dom h -> h' !! k = h !! k)
      /\ h' !! l = Some (fold_left addCounters vs t)
      /\ match rest with
         | [] => l = acc /\ h' = h
         | _ :: _ => l ∉ dom h
         end.
Proof.
  induction rest as [|f rest IH]; intros h acc t vs Ht Hvs.
  - injection Hvs as <-. exists h, acc. simpl. auto.
  - simpl in Hvs.
    destruct (h !! f) as [v|] eqn:Hf; [|discriminate].
    destruct (derefAll h rest) as [vs'|] eqn:Hrest; [|discriminate].
    injection Hvs as <-.
    set (l1 := fresh (dom h)).
    assert (Hl1 : l1 ∉ dom h) by apply is_fresh.
    set (h1 := <[l1 := addCounters t v]> h).
    assert (Hframe1 : forall k, k ∈ dom h -> h1 !! k = h !! k)
      by (intros k Hk; now apply insert_fresh_lookup).
    destruct (IH h1 l1 (addCounters t v) vs') as (h' & l & Hred & Hframe & Hval & Hfresh).
    { apply lookup_insert_eq. }
    { now apply (derefAll_frame h). }
    exists h', l. cbn [reduceRefs]. unfold reduceStep, alloc. rewrite Ht, Hf.
    fold l1 h1. split; [exact Hred|]. split; [|split; [exact Hval|]].
    + intros k Hk. rewrite Hframe, Hframe1; [reflexivity|assumption|].
      apply elem_of_dom. rewrite Hframe1 by assumption. now apply elem_of_dom.
    + destruct rest as [|f' rest'].
      * destruct Hfresh as [-> _]. exact Hl1.
      * intros Hin. apply Hfresh. apply elem_of_dom.
        rewrite Hframe1 by assumption. now apply elem_of_dom.
Qed.

Lemma filterRefs_spec (h : store) (fs : gset string) (data : list positive) :
  forall vs, derefAll h data = Some vs ->
    exists kept, filterRefs h fs data = Some kept
                 /\ derefAll h kept = Some (filterFiles vs (Some fs)).
Proof.
  induction data as [|k data IH]; intros vs; simpl.
  - intros [= <-]. exists []. auto.
  - destruct (h !! k) as [v|] eqn:Hk; [|discriminate].
    destruct (derefAll h data) as [vs'|]; [|discriminate].
    intros [= <-]. destruct (IH vs' eq_refl) as (kept & -> & Hkept).
    simpl in Hkept |- *.
    destruct (has fs (file v)); eexists; split; try reflexivity; simpl.
    + now rewrite Hk, Hkept.
    + exact Hkept.
Qed.

Lemma keptRefs_spec (h : store) (files : option (gset string)) (data : list positive) :
  forall vs, derefAll h data = Some vs ->
    exists kept, keptRefs h data files = Some kept
                 /\ derefAll h kept = Some (filterFiles vs files).
Proof.
  intros vs Hvs. destruct files as [fs|]; [now apply filterRefs_spec|].
  exists data. auto.
Qed.

(** * The model on concrete inputs *)

Example Number_100 : Number 100 = 100%float.
Proof. reflexivity. Qed.

Example coverage_80 : calculateLineCoverage (mkCounter 100 80) = 80%float.
Proof. reflexivity. Qed.

Example coverage_overCounted :
  calculateLineCoverage (lines overCountedRecord) = 150%float
  /\ isPassed (Some overCountedRecord) 100 = true.
Proof. split; reflexivity. Qed.

Example isPassed_80_of_100 : isPassed (Some (hd emptyRecord sampleData)) 75 = true.
Proof. reflexivity. Qed.

Example isPassed_empty_record : isPassed (Some emptyRecord) 75 = false.
Proof. reflexivity. Qed.

Example sumLcov_sample :
  counters (sumLcov sampleData None)
  = Some (mkCounter 110 85, mkCounter 5 5, mkCounter 2 1)
  /\ counters (sumLcov sampleData (Some sampleChanged))
     = Some (mkCounter 10 5, mkCounter 1 1, mkCounter 0 0)
  /\ sumLcov sampleData (Some ∅) = None.
Proof. repeat split. Qed.

(** The aggregate is a copy of the first kept record with the sums written
    into it, so its [file] field follows the order of the records. *)
Example sumLcov_keeps_first_path :
  file <$> sumLcov sampleData None = Some "/w/src/a.js"%string
  /\ file <$> sumLcov (rev sampleData) None = Some "/w/src/b.js"%string.
Proof. split; reflexivity. Qed.

Example evaluate_sample :
  bothPassed (evaluate sampleData sampleChanged 60 60) = false
  /\ bothPassed (evaluate sampleData sampleChanged 60 50) = true
  /\ setFailed (evaluate sampleData sampleChanged 60 60)
     = Some "Coverage is below the minimum"%string.
Proof. repeat split. Qed.

Example sumLcovRefs_sample :
  sumLcovRefs sampleStore sampleRefs None
  = Some (<[ 3%positive := mkLcovFile "/w/src/a.js" (mkCounter 110 85) (mkCounter 5 5)
                             (mkCounter 2 1) ]> sampleStore,
          Some 3%positive)
  /\ sumLcovRefs sampleStore sampleRefs (Some sampleChanged)
     = Some (sampleStore, Some 2%positive).
Proof. split; reflexivity. Qed.

(** * The claims *)

(** C1.  The verdict of a run is true exactly when the all-files aggregate
    passes the all-files minimum and either no record belongs to a changed
    file, or the changed-files aggregate passes the changed-files minimum and
    the line coverage of every changed-file record meets that minimum.  With
    no changed-file record the verdict is the all-files verdict.  The line
    counts are the safe integers an LCOV report holds. *)
Theorem run_verdict_iff (data : list LcovFile) (changedFiles : gset string)
    (allFilesInput changedFilesInput : float) :
  forallb safeLines data = true ->
  let ev := evaluate data changedFiles allFilesInput changedFilesInput in
  let changed := filterFiles data (Some changedFiles) in
  (bothPassed ev = true <->
     isPassed (sumLcov data None) (orZero allFilesInput) = true /\
     (changed = [] \/
      (isPassed (sumLcov data (Some changedFiles)) (orZero changedFilesInput) = true /\
       forall r, In r changed -> meetsMinimum r (orZero changedFilesInput) = true)))
  /\ (changed = [] ->
      bothPassed ev = isPassed (sumLcov data None) (orZero allFilesInput)).
Proof.
  intros Hsafe ev changed.
  assert (Hsafe' : forall r, In r changed -> isSafeInteger (found (lines r)) = true).
  { intros r Hin. apply filter_In in Hin as [Hin _].
    rewrite forallb_forall in Hsafe. specialize (Hsafe r Hin).
    unfold safeLines in Hsafe. now apply andb_true_iff in Hsafe as [? _]. }
  subst ev. unfold evaluate. cbn [bothPassed].
  fold (filterFiles data (Some changedFiles)). fold changed.
  set (A := isPassed (sumLcov data None) (orZero allFilesInput)).
  set (c := orZero changedFilesInput) in *.
  set (B := isPassed (sumLcov data (Some changedFiles)) c).
  assert (Hnone : sumLcov data (Some changedFiles) = None <-> changed = [])
    by apply sumLcov_None.
  split.
  - destruct changed as [|r0 rest] eqn:Hch.
    + rewrite (proj2 Hnone eq_refl). simpl. rewrite andb_true_r.
      split; [intros ->; auto|tauto].
    + assert (Hsome : sumLcov data (Some changedFiles) <> None)
        by (intros H; apply Hnone in H; discriminate).
      rewrite (bool_decide_eq_true_2 _ Hsome). cbn [negb orb].
      unfold checkAllIndividualFilesPassed.
      rewrite length_eqb_zero. cbn [orb].
      rewrite andb_true_iff, andb_true_iff.
      destruct (truthy c) eqn:Htr; cbn [negb].
      * rewrite forallb_forall.
        split; [intros (HA & HB & Hall); split; [|right]; auto
               |intros (HA & [Hnil|(HB & Hall)]); [discriminate|auto]].
      * split; [|intros (HA & [Hnil|(HB & Hall)]); [discriminate|auto]].
        intros (HA & HB & _). split; [assumption|right]. split; [assumption|].
        intros r Hin. unfold meetsMinimum.
        replace c with 0%float by (symmetry; apply orZero_falsy; exact Htr).
        apply lineCoverage_nonneg. now apply Hsafe'.
  - intros Hnil. rewrite (proj2 Hnone Hnil). simpl. now rewrite andb_true_r.
Qed.

Lemma run_verdict_iff_witness :
  forallb safeLines sampleData = true /\
  (bothPassed (evaluate sampleData sampleChanged 60 0) = true <->
     isPassed (sumLcov sampleData None) (orZero 60) = true /\
     (filterFiles sampleData (Some sampleChanged) = [] \/
      (isPassed (sumLcov sampleData (Some sampleChanged)) (orZero 0) = true /\
       forall r, In r (filterFiles sampleData (Some sampleChanged)) ->
                 meetsMinimum r (orZero 0) = true))).
Proof.
  split; [reflexivity|].
  apply (run_verdict_iff sampleData sampleChanged 60 0). reflexivity.
Defined.

(** C2, as stated, fails: an absent aggregate is evaluated with coverage [0],
    and [0 >= 0] holds, so it passes the minimum [0] although no data is
    present. *)
Lemma isPassed_absent_counterexample :
  ~ (forall (data : option LcovFile) (minimumCoverage : float),
       isPassed data minimumCoverage = true <->
       exists d, data = Some d /\ meetsMinimum d minimumCoverage = true).
Proof.
  intros H. destruct (proj1 (H None 0%float) eq_refl) as (d & Hd & _).
  discriminate.
Qed.

(** C2, amended.  [isPassed] returns true exactly when the coverage it
    evaluates is at least the minimum, where that coverage is the line
    coverage of a present aggregate ([hit*100/found], or [0] when [found] is
    [0]) and [0] for an absent one; an absent aggregate therefore passes
    exactly when [0 >= minimum]. *)
Theorem isPassed_spec (data : option LcovFile) (minimumCoverage : float) :
  isPassed data minimumCoverage
  = geb (match data with
         | Some d => calculateLineCoverage (lines d)
         | None => 0%float
         end) minimumCoverage
  /\ isPassed None minimumCoverage = geb 0 minimumCoverage
  /\ (forall d, isPassed (Some d) minimumCoverage = meetsMinimum d minimumCoverage).
Proof.
  split; [|split].
  - destruct data as [d|]; [apply isPassed_Some|reflexivity].
  - reflexivity.
  - intros d. apply isPassed_Some.
Qed.

(** C6.  With an empty collection or a falsy minimum the individual check is
    true whatever the records hold; otherwise it is true exactly when the line
    coverage of every record is at least the minimum. *)
Theorem checkAllIndividualFilesPassed_spec (files : list LcovFile) (minimumCoverage : float) :
  (files = [] \/ truthy minimumCoverage = false ->
   checkAllIndividualFilesPassed (Some files) minimumCoverage = true)
  /\ (files <> [] -> truthy minimumCoverage = true ->
      (checkAllIndividualFilesPassed (Some files) minimumCoverage = true <->
       forall r, In r files -> geb (calculateLineCoverage (lines r)) minimumCoverage = true))
  /\ truthy 0 = false.
Proof.
  unfold checkAllIndividualFilesPassed. rewrite length_eqb_zero.
  split; [|split; [|reflexivity]].
  - intros [->| ->]; [reflexivity|]. now rewrite orb_true_r.
  - intros Hne ->. destruct files as [|r0 rest]; [congruence|].
    cbn [negb orb]. apply forallb_forall.
Qed.

(** C10.  When no record of the report belongs to the (non-empty) changed-file
    set, the changed-files aggregate is absent, the changed-files requirement
    does not apply and the verdict is the all-files verdict.  (That the
    requirement applies exactly when some record's path is in the set is
    [hasChangedFiles_iff].) *)
Theorem no_matching_record (data : list LcovFile) (changedFiles : gset string)
    (allFilesInput changedFilesInput : float) :
  changedFiles <> ∅ ->
  (forall r, In r data -> file r ∉ changedFiles) ->
  let ev := evaluate data changedFiles allFilesInput changedFilesInput in
  changedFilesLcov ev = None
  /\ hasChangedFiles ev = false
  /\ bothPassed ev = allFilesPassed ev
  /\ allFilesPassed ev = isPassed (sumLcov data None) (orZero allFilesInput).
Proof.
  intros _ Hnone ev.
  assert (H : sumLcov data (Some changedFiles) = None)
    by (apply sumLcov_None, filterFiles_nil, Hnone).
  subst ev. unfold evaluate. cbn [changedFilesLcov hasChangedFiles bothPassed allFilesPassed].
  rewrite H. cbn. rewrite andb_true_r. repeat split.
Qed.

Lemma no_matching_record_witness :
  let ev := evaluate sampleData {[ "/w/README.md"%string ]} 60 90 in
  changedFilesLcov ev = None
  /\ hasChangedFiles ev = false
  /\ bothPassed ev = allFilesPassed ev
  /\ allFilesPassed ev = isPassed (sumLcov sampleData None) (orZero 60).
Proof.
  apply (no_matching_record sampleData {[ "/w/README.md"%string ]} 60 90).
  - apply (non_empty_singleton_L (C := gset string)).
  - intros r Hin. apply filterFiles_nil with (data := sampleData); [reflexivity|exact Hin].
Defined.

(** With exact sums, permuting the records changes none of the six counters
    of the aggregate, and the aggregate is absent for one order exactly when
    it is absent for the other. *)
Lemma sumLcov_Permutation_exact (data data' : list LcovFile) (files : option (gset string)) :
  Permutation data data' ->
  counters (sumLcov data files) = counters (sumLcov data' files).
Proof.
  intros H. rewrite !sumLcov_counters.
  pose proof (filterFiles_Permutation files _ _ H) as Hf.
  destruct (filterFiles data files) as [|a l] eqn:E, (filterFiles data' files) as [|b l'] eqn:E'.
  - reflexivity.
  - apply Permutation_nil in Hf. discriminate.
  - symmetry in Hf. apply Permutation_nil in Hf. discriminate.
  - f_equal. now apply totals_Permutation.
Qed.


Section RenderFacts.
Variable numberToString : float -> string.
Variable toFixed1 : float -> string.
Variable basename : string -> string.
Variable markdownTable : list (list string) -> string.

(** C3.  A counter pair with [found = 0] has line coverage exactly [0], is
    rendered as [N/A], and passes no strictly positive minimum: not as an
    aggregate, not as a row of the file table, and not in the individual
    check. *)
Theorem zero_found_rule (c : Counter) :
  found c = 0 ->
  calculateLineCoverage c = 0%float
  /\ renderLcovPercentage numberToString toFixed1 c = "N/A"%string
  /\ (forall minimumCoverage, (0 <? minimumCoverage)%float = true ->
       geb (calculateLineCoverage c) minimumCoverage = false
       /\ forall d, lines d = c ->
            isPassed (Some d) minimumCoverage = false
            /\ filePassed d minimumCoverage = false
            /\ (forall fs, In d fs ->
                 checkAllIndividualFilesPassed (Some fs) minimumCoverage = false)).
Proof.
  intros Hc.
  assert (H0 : calculateLineCoverage c = 0%float)
    by (unfold calculateLineCoverage; now rewrite Hc).
  split; [assumption|]. split; [unfold renderLcovPercentage; now rewrite Hc|].
  intros m Hm.
  assert (Hfail : geb (calculateLineCoverage c) m = false)
    by (rewrite H0; apply ltb_zero_leb, Hm).
  split; [assumption|]. intros d <-.
  split; [rewrite isPassed_Some; exact Hfail|].
  split; [unfold filePassed; rewrite (positive_truthy m Hm); exact Hfail|].
  intros fs Hin. unfold checkAllIndividualFilesPassed.
  rewrite length_eqb_zero, (positive_truthy m Hm).
  destruct fs as [|r0 rest]; [destruct Hin|]. cbn [negb orb].
  apply not_true_is_false. intros Hall.
  rewrite forallb_forall in Hall. specialize (Hall d Hin). congruence.
Qed.

(** C7.  When no record passes the filter the file table is the empty string.
    Otherwise it is the Markdown table followed by a blank line, preceded by
    the heading that names the minimum when the minimum is truthy and by
    nothing when it is falsy (in particular when it is [0]). *)
Theorem renderLcovFiles_heading (data : list LcovFile) (files : option (gset string))
    (minimumCoverage : float) :
  let kept := filterFiles data files in
  let render := renderLcovFiles numberToString toFixed1 basename markdownTable in
  let table :=
    markdownTable (tableHeader :: map (fileRow numberToString toFixed1 basename minimumCoverage) kept) in
  (kept = [] -> render data files minimumCoverage = EmptyString)
  /\ (kept <> [] -> truthy minimumCoverage = false ->
      render data files minimumCoverage = table +:+ nl +:+ nl)
  /\ (kept <> [] -> truthy minimumCoverage = true ->
      render data files minimumCoverage
      = ("#### Files (Minimum Coverage: " +:+ numberToString minimumCoverage
           +:+ "%)" +:+ nl +:+ nl)
        +:+ table +:+ nl +:+ nl)
  /\ truthy 0 = false.
Proof.
  intros kept render table. subst render table. unfold renderLcovFiles.
  fold kept. rewrite length_eqb_zero.
  split; [|split; [|split; [|reflexivity]]].
  - intros ->. reflexivity.
  - intros Hne ->. destruct kept; [congruence|reflexivity].
  - intros Hne ->. destruct kept; [congruence|reflexivity].
Qed.

End RenderFacts.

Lemma zero_found_rule_witness :
  found (lines emptyRecord) = 0
  /\ calculateLineCoverage (lines emptyRecord) = 0%float
  /\ renderLcovPercentage (fun _ => EmptyString) (fun _ => EmptyString) (lines emptyRecord)
     = "N/A"%string
  /\ isPassed (Some emptyRecord) 75 = false
  /\ filePassed emptyRecord 75 = false
  /\ checkAllIndividualFilesPassed (Some [emptyRecord]) 75 = false.
Proof.
  destruct (zero_found_rule (fun _ => EmptyString) (fun _ => EmptyString)
              (lines emptyRecord) eq_refl) as (Hcov & Hcell & Hmin).
  destruct (Hmin 75%float eq_refl) as (_ & Hd).
  destruct (Hd emptyRecord eq_refl) as (Hp & Hrow & Hall).
  exact (conj eq_refl (conj Hcov (conj Hcell (conj Hp (conj Hrow
           (Hall [emptyRecord] (or_introl eq_refl))))))).
Defined.

(** C9, as stated, fails on the second half: when exactly one record is
    summed, [reduce] returns its first accumulator, so the aggregate is that
    input record itself and not a new object. *)
Lemma aggregate_alias_counterexample :
  ~ (forall (h h' : store) (data : list positive) (files : option (gset string))
            (res : option positive),
       sumLcovRefs h data files = Some (h', res) ->
       (forall l, l ∈ dom h -> h' !! l = h !! l)
       /\ (forall l, res = Some l -> l ∉ dom h)).
Proof.
  intros H.
  destruct (H {[ 1%positive := emptyRecord ]} {[ 1%positive := emptyRecord ]}
              [1%positive] None (Some 1%positive) eq_refl) as [_ Hnew].
  apply (Hnew 1%positive eq_refl). apply elem_of_dom. now exists emptyRecord.
Qed.

(** C9, amended.  Summing an array of records, filtered by a path set or not,
    returns and leaves every record that existed before with the fields it
    had.  The reference returned denotes the aggregate [sumLcov] computes on
    the records; it is absent when no record is kept, it is the kept record
    itself when exactly one is kept, and it is a new object otherwise. *)
Theorem sumLcovRefs_frame (h : store) (data : list positive)
    (files : option (gset string)) (vs : list LcovFile) :
  derefAll h data = Some vs ->
  exists (h' : store) (res : option positive) (kept : list positive),
    keptRefs h data files = Some kept
    /\ sumLcovRefs h data files = Some (h', res)
    /\ (forall l, l ∈ dom h -> h' !! l = h !! l)
    /\ derefAll h' data = Some vs
    /\ match res with
       | Some l => h' !! l = sumLcov vs files
       | None => sumLcov vs files = None
       end
    /\ match kept with
       | [] => res = None
       | [l] => res = Some l /\ h' = h
       | _ :: _ :: _ => exists l, res = Some l /\ l ∉ dom h
       end.
Proof.
  intros Hvs.
  destruct (keptRefs_spec h files data vs Hvs) as (kept & Hkept & Hkvs).
  unfold sumLcovRefs, sumLcov. rewrite Hkept.
  destruct kept as [|first rest].
  - exists h, None, []. injection Hkvs as <-. repeat split; auto.
  - simpl in Hkvs.
    destruct (h !! first) as [t|] eqn:Ht; [|discriminate].
    destruct (derefAll h rest) as [vr|] eqn:Hrest; [|discriminate].
    injection Hkvs as <-.
    destruct (reduceRefs_spec rest h first t vr Ht Hrest)
      as (h' & l & Hred & Hframe & Hval & Hfresh).
    exists h', (Some l), (first :: rest). rewrite Hred.
    split; [reflexivity|]. split; [reflexivity|]. split; [exact Hframe|].
    split; [now apply (derefAll_frame h)|]. split; [exact Hval|].
    destruct rest as [|second rest'].
    + destruct Hfresh as [-> ->]. auto.
    + exists l. auto.
Qed.

Lemma sumLcovRefs_frame_witness :
  derefAll sampleStore sampleRefs = Some sampleData
  /\ exists (h' : store) (res : option positive) (kept : list positive),
       keptRefs sampleStore sampleRefs None = Some kept
       /\ sumLcovRefs sampleStore sampleRefs None = Some (h', res)
       /\ (forall l, l ∈ dom sampleStore -> h' !! l = sampleStore !! l)
       /\ derefAll h' sampleRefs = Some sampleData
       /\ match res with
          | Some l => h' !! l = sumLcov sampleData None
          | None => sumLcov sampleData None = None
          end
       /\ match kept with
          | [] => res = None
          | [l] => res = Some l /\ h' = sampleStore
          | _ :: _ :: _ => exists l, res = Some l /\ l ∉ dom sampleStore
          end.
Proof.
  split; [reflexivity|].
  apply (sumLcovRefs_frame sampleStore sampleRefs None sampleData). reflexivity.
Defined.

(** * Further properties of the aggregation *)

Lemma addCounters_assoc (a b c : LcovFile) :
  addCounters (addCounters a b) c = addCounters a (addCounters b c).
Proof.
  unfold addCounters. simpl. now rewrite !N.add_assoc.
Qed.

Lemma fold_left_addCounters_shift (rest : list LcovFile) (a b : LcovFile) :
  fold_left addCounters rest (addCounters a b)
  = addCounters a (fold_left addCounters rest b).
Proof.
  revert b. induction rest as [|r rest IH]; intros b; simpl; [reflexivity|].
  now rewrite addCounters_assoc, IH.
Qed.

Lemma filterFiles_app (l1 l2 : list LcovFile) (files : option (gset string)) :
  filterFiles (l1 ++ l2) files = filterFiles l1 files ++ filterFiles l2 files.
Proof.
  destruct files as [fs|]; simpl; [apply List.filter_app|reflexivity].
Qed.


Lemma total_filter_le (f : LcovFile -> N) (p : LcovFile -> bool) (l : list LcovFile) :
  total f (List.filter p l) <= total f l.
Proof.
  induction l as [|r l IH]; simpl; [lia|].
  destruct (p r); simpl; lia.
Qed.

Lemma total_In_le (f : LcovFile -> N) (l : list LcovFile) (r : LcovFile) :
  In r l -> f r <= total f l.
Proof.
  induction l as [|x l IH]; simpl; [intros []|].
  intros [->|Hin]; [lia|]. specialize (IH Hin). lia.
Qed.

Lemma sumLcov_totals (data : list LcovFile) (files : option (gset string))
    (agg : LcovFile) :
  sumLcov data files = Some agg ->
  (lines agg, functions agg, branches agg) = totals (filterFiles data files)
  /\ filterFiles data files <> [].
Proof.
  intros H. pose proof (sumLcov_counters data files) as Hc.
  rewrite H in Hc. cbn [counters] in Hc.
  destruct (filterFiles data files) as [|r l]; [discriminate|].
  split; [congruence|discriminate].
Qed.

(** With exact sums, the aggregate of a report made of two parts is the
    aggregate of the first part with the counters of the second part's
    aggregate added. *)
Lemma sumLcov_app_exact (l1 l2 : list LcovFile) (files : option (gset string)) :
  sumLcov (l1 ++ l2) files
  = match sumLcov l1 files, sumLcov l2 files with
    | Some a, Some b => Some (addCounters a b)
    | Some a, None => Some a
    | None, other => other
    end.
Proof.
  unfold sumLcov. rewrite filterFiles_app.
  destruct (filterFiles l1 files) as [|a r1]; simpl.
  - destruct (filterFiles l2 files); reflexivity.
  - rewrite fold_left_app.
    destruct (filterFiles l2 files) as [|b r2]; simpl; [reflexivity|].
    now rewrite fold_left_addCounters_shift.
Qed.





(** * Further properties of the evaluation *)

Lemma SFleb_trans (x y z : spec_float) :
  SFleb x y = true -> SFleb y z = true -> SFleb x z = true.
Proof.
  unfold SFleb, SFcompare.
  destruct x as [[]|[]| |[] mx ex], y as [[]|[]| |[] my ey], z as [[]|[]| |[] mz ez];
    try discriminate; try reflexivity;
    rewrite ?Pos.compare_cont_spec; unfold Pos.switch_Eq;
    repeat match goal with
           | |- context [Z.compare ?a ?b] => destruct (Z.compare_spec a b)
           | |- context [Pos.compare ?a ?b] => destruct (Pos.compare_spec a b)
           end;
    simpl; try discriminate; try reflexivity; intros _ _; exfalso; lia.
Qed.

Lemma leb_trans (x y z : float) :
  (x <=? y)%float = true -> (y <=? z)%float = true -> (x <=? z)%float = true.
Proof. rewrite !FloatAxioms.leb_spec. apply SFleb_trans. Qed.

Lemma geb_lower (x m m' : float) :
  (m' <=? m)%float = true -> geb x m = true -> geb x m' = true.
Proof. unfold geb. apply leb_trans. Qed.

Lemma checkAll_filePassed (fs : list LcovFile) (m : float) :
  checkAllIndividualFilesPassed (Some fs) m = forallb (fun r => filePassed r m) fs.
Proof.
  unfold checkAllIndividualFilesPassed, filePassed. rewrite length_eqb_zero.
  destruct fs as [|r0 rest]; [reflexivity|]. cbn [orb].
  destruct (truthy m); cbn [negb]; [reflexivity|].
  symmetry. apply forallb_forall. reflexivity.
Qed.

Lemma isPassed_zero (data : option LcovFile) :
  (forall d, data = Some d -> isSafeInteger (found (lines d)) = true) ->
  isPassed data 0 = true.
Proof.
  destruct data as [d|]; [|reflexivity].
  intros H. rewrite isPassed_Some. apply lineCoverage_nonneg. now apply H.
Qed.

Lemma isSafeInteger_le (n m : N) :
  n <= m -> isSafeInteger m = true -> isSafeInteger n = true.
Proof. unfold isSafeInteger. rewrite !N.leb_le. lia. Qed.

(** X4.  Lowering the minimum never turns a pass into a fail: an aggregate,
    present or absent, that passes a minimum passes every smaller one. *)
Theorem isPassed_lower_minimum (data : option LcovFile) (m m' : float) :
  (m' <=? m)%float = true ->
  isPassed data m = true ->
  isPassed data m' = true.
Proof.
  intros Hle. unfold isPassed. apply geb_lower. exact Hle.
Qed.

Lemma isPassed_lower_minimum_witness :
  isPassed (sumLcov sampleData None) 60 = true.
Proof.
  apply (isPassed_lower_minimum (sumLcov sampleData None) 75 60); reflexivity.
Defined.

(** X5.  The individual check agrees with the file table: it is true exactly
    when the status computed for the row of every record is a pass, whatever
    the minimum. *)
Theorem individual_check_matches_rows (fs : list LcovFile) (m : float) :
  checkAllIndividualFilesPassed (Some fs) m = true
  <-> forall r, In r fs -> filePassed r m = true.
Proof.
  rewrite checkAll_filePassed. apply forallb_forall.
Qed.

(** X6.  With no minimum configured (both inputs [0], [-0] or not a number)
    a run passes and reports no failure, provided the total of the line
    counts is a safe integer. *)
Theorem no_minimum_passes (data : list LcovFile) (changedFiles : gset string)
    (allFilesInput changedFilesInput : float) :
  truthy allFilesInput = false ->
  truthy changedFilesInput = false ->
  isSafeInteger (total (fun r => found (lines r)) data) = true ->
  let ev := evaluate data changedFiles allFilesInput changedFilesInput in
  bothPassed ev = true /\ setFailed ev = None.
Proof.
  intros Ha Hc Hsafe ev.
  assert (Hb : bothPassed ev = true).
  { subst ev. unfold evaluate. cbn [bothPassed]. unfold orZero. rewrite Ha, Hc.
    assert (Hagg : forall files d, sumLcov data files = Some d ->
                                   isSafeInteger (found (lines d)) = true).
    { intros files d Hd. destruct (sumLcov_totals _ _ _ Hd) as [Ht _].
      unfold totals in Ht. injection Ht as -> _ _. simpl.
      refine (isSafeInteger_le _ _ _ Hsafe).
      destruct files as [fs|]; simpl; [apply total_filter_le|lia]. }
    rewrite !isPassed_zero by (intros d Hd; eapply Hagg; eauto).
    unfold checkAllIndividualFilesPassed.
    replace (truthy 0) with false by reflexivity.
    cbn [negb]. rewrite orb_true_r, orb_true_r. reflexivity. }
  split; [exact Hb|]. unfold setFailed. now rewrite Hb.
Qed.

Lemma no_minimum_passes_witness :
  bothPassed (evaluate sampleData sampleChanged nan 0) = true
  /\ setFailed (evaluate sampleData sampleChanged nan 0) = None.
Proof.
  apply (no_minimum_passes sampleData sampleChanged nan 0); reflexivity.
Defined.

Lemma falsy_class (x : float) :
  truthy x = false ->
  Prim2SF x = S754_nan \/ exists s, Prim2SF x = S754_zero s.
Proof.
  unfold truthy, PrimFloat.is_nan. rewrite !FloatAxioms.eqb_spec, Prim2SF_zero.
  destruct (Prim2SF x) as [s|s| |s m e]; eauto.
  - destruct s; discriminate.
  - rewrite SFeqb_finite_refl. destruct s; discriminate.
Qed.

Lemma orZero_leb (x y : float) :
  (x <=? y)%float = true -> (orZero x <=? orZero y)%float = true.
Proof.
  unfold orZero. intros Hle.
  destruct (truthy x) eqn:Hx, (truthy y) eqn:Hy; try assumption; try reflexivity.
  - apply falsy_class in Hy. revert Hle.
    rewrite !FloatAxioms.leb_spec, Prim2SF_zero.
    destruct Hy as [->|[s ->]]; destruct (Prim2SF x) as [[]|[]| |[] ? ?];
      simpl; trivial.
  - apply falsy_class in Hx. revert Hle.
    rewrite !FloatAxioms.leb_spec, Prim2SF_zero.
    destruct Hx as [->|[s ->]]; destruct (Prim2SF y) as [[]|[]| |[] ? ?];
      simpl; trivial.
Qed.

Lemma filePassed_lower (r : LcovFile) (m m' : float) :
  isSafeInteger (found (lines r)) = true ->
  (truthy m = false -> m = 0%float) ->
  (m' <=? m)%float = true ->
  filePassed r m = true -> filePassed r m' = true.
Proof.
  intros Hsafe Hzero Hle. unfold filePassed.
  destruct (truthy m') eqn:Hm'; [|reflexivity].
  destruct (truthy m) eqn:Hm; [now apply geb_lower|].
  intros _. rewrite (Hzero eq_refl) in Hle.
  apply (geb_lower _ 0 m' Hle). now apply lineCoverage_nonneg.
Qed.

(** X7.  Lowering either configured minimum never turns a passing run into a
    failing one, for a report whose line counts are safe integers. *)
Theorem verdict_lower_minimums (data : list LcovFile) (changedFiles : gset string)
    (allFilesInput changedFilesInput allFilesInput' changedFilesInput' : float) :
  forallb safeLines data = true ->
  (allFilesInput' <=? allFilesInput)%float = true ->
  (changedFilesInput' <=? changedFilesInput)%float = true ->
  bothPassed (evaluate data changedFiles allFilesInput changedFilesInput) = true ->
  bothPassed (evaluate data changedFiles allFilesInput' changedFilesInput') = true.
Proof.
  intros Hsafe Ha Hc. unfold evaluate. cbn [bothPassed].
  apply orZero_leb in Ha, Hc.
  rewrite !andb_true_iff, !orb_true_iff, !andb_true_iff.
  intros [HA Hrest]. split; [now apply (geb_lower _ _ _ Ha)|].
  destruct Hrest as [Hno|[HB Hall]]; [now left|right].
  split; [now apply (geb_lower _ _ _ Hc)|].
  rewrite checkAll_filePassed, forallb_forall in Hall |- *.
  intros r Hin. apply (filePassed_lower r (orZero changedFilesInput)).
  - apply filter_In in Hin as [Hin _]. rewrite forallb_forall in Hsafe.
    specialize (Hsafe r Hin). unfold safeLines in Hsafe.
    now apply andb_true_iff in Hsafe as [? _].
  - apply orZero_falsy.
  - exact Hc.
  - now apply Hall.
Qed.

Lemma verdict_lower_minimums_witness :
  bothPassed (evaluate sampleData sampleChanged 60 0) = true.
Proof.
  apply (verdict_lower_minimums sampleData sampleChanged 75 50 60 0); reflexivity.
Defined.

(** * Further properties of the rendering *)

Lemma string_length_append (s1 s2 : string) :
  String.length (s1 +:+ s2) = (String.length s1 + String.length s2)%nat.
Proof. induction s1 as [|c s1 IH]; simpl; [reflexivity|now rewrite IH]. Qed.

Lemma prefix_append (s r : string) : String.prefix s (s +:+ r) = true.
Proof.
  induction s as [|c s IH]; simpl; [now destruct r|].
  destruct (Ascii.ascii_dec c c); [exact IH|congruence].
Qed.

Lemma prefix_cons (a b : Ascii.ascii) (s1 s2 : string) :
  String.prefix (String a s1) (String b s2) = true ->
  a = b /\ String.prefix s1 s2 = true.
Proof.
  simpl. destruct (Ascii.ascii_dec a b); [auto|discriminate].
Qed.

Lemma noNewline_cons (c : Ascii.ascii) (s : string) :
  noNewline (String c s) = true -> c <> Ascii.ascii_of_nat 10 /\ noNewline s = true.
Proof.
  simpl. rewrite andb_true_iff, negb_true_iff, Ascii.eqb_neq. trivial.
Qed.

(** A title followed by [")"] and a line feed is a prefix of another title
    followed by the same two characters only when the titles are equal, as
    long as neither title holds a line feed. *)
Lemma marker_tail_inj (t1 : string) :
  forall (t2 rest : string),
    noNewline t1 = true -> noNewline t2 = true ->
    String.prefix (t1 +:+ ")" +:+ nl) ((t2 +:+ ")" +:+ nl) +:+ rest) = true ->
    t1 = t2.
Proof.
  induction t1 as [|a t1 IH]; intros t2 rest H1 H2 Hp.
  - destruct t2 as [|c t2]; [reflexivity|exfalso].
    apply noNewline_cons in H2 as [Hc H2].
    cbn [String.append] in Hp. apply prefix_cons in Hp as [_ Hp].
    destruct t2 as [|d t2]; cbn [String.append nl] in Hp.
    + apply prefix_cons in Hp as [Hp _]. discriminate.
    + apply noNewline_cons in H2 as [Hd _].
      apply prefix_cons in Hp as [Hp _]. unfold nl in Hp. congruence.
  - apply noNewline_cons in H1 as [Ha H1].
    destruct t2 as [|c t2].
    + exfalso. cbn [String.append] in Hp. apply prefix_cons in Hp as [_ Hp].
      destruct t1 as [|b t1]; cbn [String.append nl] in Hp.
      * apply prefix_cons in Hp as [Hp _]. discriminate.
      * apply noNewline_cons in H1 as [Hb _].
        apply prefix_cons in Hp as [Hp _]. congruence.
    + apply noNewline_cons in H2 as [_ H2].
      cbn [String.append] in Hp. apply prefix_cons in Hp as [-> Hp].
      f_equal. now apply (IH t2 rest).
Qed.

Section RenderProperties.
Variable numberToString : float -> string.
Variable toFixed1 : float -> string.
Variable basename : string -> string.
Variable markdownTable : list (list string) -> string.

(** X8.  A counter pair is rendered as [N/A] exactly when nothing was found. *)
Theorem renderLcovPercentage_NA (c : Counter) :
  renderLcovPercentage numberToString toFixed1 c = "N/A"%string <-> found c = 0.
Proof.
  unfold renderLcovPercentage. destruct (found c =? 0) eqn:Hz.
  - apply N.eqb_eq in Hz. tauto.
  - apply N.eqb_neq in Hz. split; [|tauto]. intros H.
    apply (f_equal String.length) in H.
    rewrite !string_length_append in H. simpl in H. lia.
Qed.

Lemma renderLcovOverall_NA (data : option LcovFile) (minimumCoverage : float)
    (passed : bool) :
  renderLcovOverall numberToString toFixed1 data minimumCoverage passed = "N/A" +:+ nl
  <-> data = None.
Proof.
  destruct data as [d|]; simpl; split; try discriminate; reflexivity.
Qed.

(** X9.  The changed-files section of a run reads [N/A] exactly when no
    record of the report has its path in the changed-file set; a record
    with nothing found still gets the three lines. *)
Theorem changed_section_NA (data : list LcovFile) (changedFiles : gset string)
    (allFilesInput changedFilesInput : float) :
  let ev := evaluate data changedFiles allFilesInput changedFilesInput in
  renderLcovOverall numberToString toFixed1 (changedFilesLcov ev)
    (changedFilesMinimumCoverage ev) (changedFilesPassed ev) = "N/A" +:+ nl
  <-> forall r, In r data -> file r ∉ changedFiles.
Proof.
  intros ev. rewrite renderLcovOverall_NA. subst ev. unfold evaluate.
  cbn [changedFilesLcov]. rewrite sumLcov_None. apply filterFiles_nil.
Qed.

(** X10.  The file table is the empty string exactly when no record is kept
    by the filter. *)
Theorem renderLcovFiles_empty (data : list LcovFile) (files : option (gset string))
    (minimumCoverage : float) :
  renderLcovFiles numberToString toFixed1 basename markdownTable data files minimumCoverage
  = EmptyString
  <-> filterFiles data files = [].
Proof.
  unfold renderLcovFiles. rewrite length_eqb_zero.
  destruct (filterFiles data files) as [|r kept]; [tauto|].
  split; [|discriminate]. intros H.
  apply (f_equal String.length) in H.
  rewrite !string_length_append in H. simpl in H. lia.
Qed.

(** X11.  Every comment starts with the identity marker of its title. *)
Theorem renderComment_startsWith_id (commentTitle : string) (data : list LcovFile)
    (changedFiles : gset string) (ev : Evaluation) :
  startsWith
    (renderComment numberToString toFixed1 basename markdownTable
       commentTitle data changedFiles ev)
    (renderCommentId commentTitle) = true.
Proof.
  unfold startsWith, renderComment. apply prefix_append.
Qed.

(** X12.  The marker of one title starts the comment of another title only
    when the titles are equal, as long as neither holds a line feed. *)
Theorem renderComment_id_inj (title1 title2 : string) (data : list LcovFile)
    (changedFiles : gset string) (ev : Evaluation) :
  noNewline title1 = true ->
  noNewline title2 = true ->
  startsWith
    (renderComment numberToString toFixed1 basename markdownTable
       title2 data changedFiles ev)
    (renderCommentId title1) = true ->
  title1 = title2.
Proof.
  intros H1 H2. unfold startsWith, renderComment, renderCommentId.
  cbn -[nl]. intros Hp.
  repeat (apply prefix_cons in Hp as [_ Hp]).
  eapply marker_tail_inj; [exact H1|exact H2|exact Hp].
Qed.

End RenderProperties.

Lemma renderComment_id_inj_witness :
  noNewline "unit" = true /\ "unit"%string = "unit"%string.
Proof.
  split; [reflexivity|].
  apply (renderComment_id_inj (fun _ => EmptyString) (fun _ => EmptyString)
           (fun p => p) (fun _ => EmptyString) "unit" "unit" sampleData sampleChanged
           (evaluate sampleData sampleChanged 60 0)); reflexivity.
Defined.

(** * Further properties of the glue *)

Lemma total_map (f : LcovFile -> N) (h : LcovFile -> LcovFile) (l : list LcovFile) :
  total f (map h l) = total (fun x => f (h x)) l.
Proof. induction l as [|x l IH]; simpl; [reflexivity|now rewrite IH]. Qed.

Lemma filterFiles_empty_set (data : list LcovFile) :
  filterFiles data (Some ∅) = [].
Proof.
  apply filterFiles_nil. intros r _. apply not_elem_of_empty.
Qed.

(** X13.  [postComment] creates a comment exactly when no comment of the pull
    request starts with the marker; otherwise it updates the first comment
    that does. *)
Theorem postComment_decision (comments : list Comment) (commentId text : string) :
  (postComment comments commentId text = CreateComment text
   <-> forall c, In c comments -> startsWith (body c) commentId = false)
  /\ (forall before c after,
       comments = before ++ c :: after ->
       (forall x, In x before -> startsWith (body x) commentId = false) ->
       startsWith (body c) commentId = true ->
       postComment comments commentId text = UpdateComment (comment_id c) text).
Proof.
  unfold postComment. split.
  - destruct (find _ comments) as [c|] eqn:Hf.
    + split; [discriminate|]. intros Hnone.
      apply find_some in Hf as [Hin Hc]. rewrite (Hnone c Hin) in Hc. discriminate.
    + split; [|reflexivity]. intros _. now apply find_none.
  - intros before c after -> Hbefore Hc.
    induction before as [|x before IH]; simpl.
    + now rewrite Hc.
    + rewrite (Hbefore x (or_introl eq_refl)). apply IH.
      intros y Hy. apply Hbefore. now right.
Qed.

Section RunProperties.
Variable numberToString : float -> string.
Variable toFixed1 : float -> string.
Variable basename : string -> string.
Variable markdownTable : list (list string) -> string.
Variable resolve : string -> string -> string.

(** X14.  On a pull request whose comments hold the comment of an earlier run
    with the same title, a run updates a comment that starts with the marker
    and creates none. *)
Theorem run_updates_earlier_comment
    (commentTitle workingDirectory : string) (allFilesInput changedFilesInput : float)
    (artifactName : string) (parsed : list LcovFile) (filenames : list string)
    (comments : list Comment)
    (workingDirectory0 : string) (allFilesInput0 changedFilesInput0 : float)
    (artifactName0 eventName0 : string) (parsed0 : list LcovFile)
    (filenames0 : list string) (comments0 : list Comment) (earlier : Comment) :
  In earlier comments ->
  body earlier
  = comment (run numberToString toFixed1 basename markdownTable resolve
               commentTitle workingDirectory0 allFilesInput0 changedFilesInput0
               artifactName0 eventName0 parsed0 filenames0 comments0) ->
  let result :=
    run numberToString toFixed1 basename markdownTable resolve
      commentTitle workingDirectory allFilesInput changedFilesInput
      artifactName "pull_request" parsed filenames comments in
  exists target,
    In target comments
    /\ startsWith (body target) (renderCommentId commentTitle) = true
    /\ posted result = Some (UpdateComment (comment_id target) (comment result)).
Proof.
  intros Hin Hbody result. subst result. unfold run. cbn [posted comment].
  rewrite bool_decide_eq_true_2 by reflexivity. unfold postComment.
  destruct (find _ comments) as [target|] eqn:Hf.
  - apply find_some in Hf as [Htin Ht]. exists target. auto.
  - exfalso. pose proof (find_none _ _ Hf earlier Hin) as Hnone.
    cbn beta in Hnone. rewrite Hbody in Hnone. unfold run in Hnone.
    cbn [comment] in Hnone.
    unfold startsWith, renderComment in Hnone. rewrite prefix_append in Hnone.
    discriminate.
Qed.

(** X15.  Outside a pull request the changed-file set is empty: no comment is
    sent, the changed-files section reads [N/A] with no file table after it,
    and the run fails exactly when the all-files aggregate is below its
    minimum. *)
Theorem run_outside_pull_request
    (commentTitle workingDirectory : string) (allFilesInput changedFilesInput : float)
    (artifactName eventName : string) (parsed : list LcovFile)
    (filenames : list string) (comments : list Comment) :
  eventName <> "pull_request"%string ->
  let data := parseLcov resolve parsed workingDirectory in
  let passed := isPassed (sumLcov data None) (orZero allFilesInput) in
  let result :=
    run numberToString toFixed1 basename markdownTable resolve
      commentTitle workingDirectory allFilesInput changedFilesInput
      artifactName eventName parsed filenames comments in
  posted result = None
  /\ failure result
     = (if passed then None else Some "Coverage is below the minimum"%string)
  /\ comment result
     = renderCommentId commentTitle
         +:+ renderCommentHeader commentTitle passed
         +:+ renderSectionHeader "All Files"
         +:+ renderLcovOverall numberToString toFixed1 (sumLcov data None)
               (orZero allFilesInput) passed
         +:+ renderSectionHeader "Changed Files"
         +:+ "N/A" +:+ nl.
Proof.
  intros Hev data passed result. subst result. unfold run.
  cbn [posted failure comment]. fold data.
  unfold getChangedFiles. rewrite (bool_decide_eq_true_2 _ Hev).
  rewrite (bool_decide_eq_false_2 (eventName = "pull_request"%string)) by assumption.
  assert (Hnone : sumLcov data (Some ∅) = None)
    by (apply sumLcov_None, filterFiles_empty_set).
  assert (Hb : bothPassed (evaluate data ∅ allFilesInput changedFilesInput) = passed).
  { unfold evaluate. cbn [bothPassed]. rewrite Hnone. cbn. now rewrite andb_true_r. }
  split; [reflexivity|]. split.
  - unfold setFailed. now rewrite Hb.
  - unfold renderComment. rewrite Hb. unfold evaluate at 1 2 3 4 5 6 7.
    cbn [allFilesLcov allFilesMinimumCoverage allFilesPassed changedFilesLcov
         changedFilesMinimumCoverage changedFilesPassed].
    rewrite Hnone. unfold renderLcovFiles. rewrite filterFiles_empty_set.
    fold passed. reflexivity.
Qed.

(** X16.  A path is in the changed-file set exactly when the event is a pull
    request and the path is the resolved name of a file of the comparison. *)
Theorem getChangedFiles_has (eventName : string) (filenames : list string)
    (workingDirectory path : string) :
  has (getChangedFiles resolve eventName filenames workingDirectory) path = true
  <-> eventName = "pull_request"%string
      /\ exists filename, In filename filenames /\ resolve workingDirectory filename = path.
Proof.
  rewrite has_spec. unfold getChangedFiles.
  destruct (decide (eventName = "pull_request"%string)) as [Heq|Hne].
  - rewrite bool_decide_eq_false_2 by (intros H; now apply H).
    rewrite elem_of_list_to_set, list_elem_of_In, in_map_iff.
    split; [intros (f & Hf & Hin); eauto|intros (_ & f & Hin & Hf); eauto].
  - rewrite bool_decide_eq_true_2 by assumption.
    split; [intros H; now apply not_elem_of_empty in H|intros [H _]; contradiction].
Qed.

Lemma totals_parseLcov (parsed : list LcovFile) (workingDirectory : string) :
  totals (parseLcov resolve parsed workingDirectory) = totals parsed.
Proof. unfold totals, parseLcov. rewrite !total_map. reflexivity. Qed.

(** X17.  Resolving the paths changes no counter: the all-files aggregate of
    the resolved records has the six counters of the aggregate of the parsed
    ones, and a record is kept by a filter exactly when its resolved path is
    in the set. *)
Theorem parseLcov_counters (parsed : list LcovFile) (workingDirectory : string)
    (files : gset string) :
  counters (sumLcov (parseLcov resolve parsed workingDirectory) None)
  = counters (sumLcov parsed None)
  /\ filterFiles (parseLcov resolve parsed workingDirectory) (Some files)
     = parseLcov resolve
         (List.filter (fun item => has files (resolve workingDirectory (file item))) parsed)
         workingDirectory.
Proof.
  split.
  - rewrite !sumLcov_counters. cbn [filterFiles].
    destruct parsed as [|r rest]; [reflexivity|].
    rewrite <- (totals_parseLcov (r :: rest) workingDirectory). reflexivity.
  - cbn [filterFiles]. unfold parseLcov.
    induction parsed as [|r rest IH]; simpl; [reflexivity|].
    destruct (has files (resolve workingDirectory (file r))); simpl; now rewrite IH.
Qed.

End RunProperties.

Lemma run_updates_earlier_comment_witness :
  let render := run (fun _ => EmptyString) (fun _ => EmptyString) (fun p => p)
                    (fun _ => EmptyString) (fun _ name => name) in
  let earlier :=
    mkComment 7%N (comment (render "unit" "/w" 60%float 0%float EmptyString "pull_request"
                            sampleData [] [])) in
  let result :=
    render "unit" "/w" 75%float 50%float EmptyString "pull_request" sampleData ["/w/src/b.js"%string]
      [mkComment 3%N "LGTM"; earlier] in
  exists target,
    In target [mkComment 3%N "LGTM"; earlier]
    /\ startsWith (body target) (renderCommentId "unit") = true
    /\ posted result = Some (UpdateComment (comment_id target) (comment result)).
Proof.
  intros render earlier result.
  apply (run_updates_earlier_comment (fun _ => EmptyString) (fun _ => EmptyString)
           (fun p => p) (fun _ => EmptyString) (fun _ name => name)
           "unit" "/w" 75%float 50%float EmptyString sampleData ["/w/src/b.js"%string]
           [mkComment 3%N "LGTM"; earlier]
           "/w" 60%float 0%float EmptyString "pull_request" sampleData [] [] earlier).
  - right. left. reflexivity.
  - reflexivity.
Defined.

Lemma run_outside_pull_request_witness :
  posted (run (fun _ => EmptyString) (fun _ => EmptyString) (fun p => p)
              (fun _ => EmptyString) (fun _ name => name)
              "unit" "/w" 60%float 90%float EmptyString "push" sampleData [] []) = None.
Proof.
  apply (run_outside_pull_request (fun _ => EmptyString) (fun _ => EmptyString)
           (fun p => p) (fun _ => EmptyString) (fun _ name => name)
           "unit" "/w" 60%float 90%float EmptyString "push" sampleData [] []).
  discriminate.
Defined.

(** * Further properties of a run's verdict *)

Section VerdictProperties.
Variable numberToString : float -> string.
Variable toFixed1 : float -> string.
Variable basename : string -> string.
Variable markdownTable : list (list string) -> string.

(** X18.  A passing run shows no failed file: the status of every row of its
    file table is a pass, and the last cell of the row is the pass glyph. *)
Theorem passed_run_rows_pass (data : list LcovFile) (changedFiles : gset string)
    (allFilesInput changedFilesInput : float) :
  let ev := evaluate data changedFiles allFilesInput changedFilesInput in
  bothPassed ev = true ->
  forall r, In r (changedFilesData ev) ->
    filePassed r (changedFilesMinimumCoverage ev) = true
    /\ List.last (fileRow numberToString toFixed1 basename
                    (changedFilesMinimumCoverage ev) r) EmptyString
       = renderPassed true.
Proof.
  intros ev. subst ev. unfold evaluate.
  cbn [bothPassed changedFilesData changedFilesMinimumCoverage].
  rewrite andb_true_iff, orb_true_iff, andb_true_iff, negb_true_iff.
  intros [_ [Hno|[_ Hall]]] r Hin.
  - exfalso. apply bool_decide_eq_false in Hno.
    assert (Hnone : sumLcov data (Some changedFiles) = None).
    { destruct (sumLcov data (Some changedFiles)); [exfalso; now apply Hno|reflexivity]. }
    apply sumLcov_None in Hnone. simpl in Hnone. rewrite Hnone in Hin. destruct Hin.
  - rewrite checkAll_filePassed, forallb_forall in Hall.
    specialize (Hall r Hin). split; [exact Hall|].
    unfold fileRow. cbn [List.last]. now rewrite Hall.
Qed.

(** X19.  The aggregate, the individual check and the file table of a run
    range over the same records: the changed-files aggregate is the sum of
    the records the individual check receives, it is present exactly when
    there is such a record, and the table rendered from the whole report with
    the changed-file set is the table of those records. *)
Theorem changed_records_agree (data : list LcovFile) (changedFiles : gset string)
    (allFilesInput changedFilesInput minimumCoverage : float) :
  let ev := evaluate data changedFiles allFilesInput changedFilesInput in
  changedFilesLcov ev = sumLcov (changedFilesData ev) None
  /\ (hasChangedFiles ev = true <-> changedFilesData ev <> [])
  /\ renderLcovFiles numberToString toFixed1 basename markdownTable
       data (Some changedFiles) minimumCoverage
     = renderLcovFiles numberToString toFixed1 basename markdownTable
         (changedFilesData ev) None minimumCoverage.
Proof.
  intros ev. subst ev. unfold evaluate.
  cbn [changedFilesLcov changedFilesData hasChangedFiles].
  split; [reflexivity|]. split; [|reflexivity].
  rewrite bool_decide_eq_true, sumLcov_None. reflexivity.
Qed.

End VerdictProperties.

Lemma passed_run_rows_pass_witness :
  bothPassed (evaluate sampleData sampleChanged 60 50) = true
  /\ filePassed (mkLcovFile "/w/src/b.js" (mkCounter 10 5) (mkCounter 1 1) (mkCounter 0 0))
       (changedFilesMinimumCoverage (evaluate sampleData sampleChanged 60 50))
     = true
  /\ List.last (fileRow (fun _ => EmptyString) (fun _ => EmptyString) (fun p => p)
                  (changedFilesMinimumCoverage (evaluate sampleData sampleChanged 60 50))
                  (mkLcovFile "/w/src/b.js" (mkCounter 10 5) (mkCounter 1 1) (mkCounter 0 0)))
       EmptyString
     = renderPassed true.
Proof.
  split; [reflexivity|].
  apply (passed_run_rows_pass (fun _ => EmptyString) (fun _ => EmptyString) (fun p => p)
           sampleData sampleChanged 60 50 eq_refl).
  left. reflexivity.
Defined.

(** X20.  The individual check of two collections put together is the
    conjunction of their checks. *)
Theorem individual_check_app (fs gs : list LcovFile) (m : float) :
  checkAllIndividualFilesPassed (Some (fs ++ gs)) m
  = checkAllIndividualFilesPassed (Some fs) m && checkAllIndividualFilesPassed (Some gs) m.
Proof.
  rewrite !checkAll_filePassed. apply forallb_app.
Qed.

(** X21.  The minimum a run compares against is never [NaN]: a configured
    value that is not a number, like [0] and [-0], becomes [0], every other
    value is kept, and applying the default twice changes nothing. *)
Theorem orZero_number (x : float) :
  PrimFloat.is_nan (orZero x) = false
  /\ (orZero x = x \/ orZero x = 0%float)
  /\ orZero (orZero x) = orZero x.
Proof.
  unfold orZero. destruct (truthy x) eqn:Hx.
  - rewrite Hx. split; [|auto].
    unfold truthy in Hx. apply negb_true_iff, orb_false_iff in Hx. tauto.
  - repeat split. now right.
Qed.

(** * Additions of doubles on safe counts *)

Lemma iter_pos_nat {A} (f : A -> A) (n : positive) (x : A) :
  SpecFloat.iter_pos f n x = Nat.iter (Pos.to_nat n) f x.
Proof.
  revert x. induction n as [n IH|n IH|]; intros x; cbn [SpecFloat.iter_pos].
  - rewrite !IH, Pos2Nat.inj_xI.
    replace (S (2 * Pos.to_nat n)) with (Pos.to_nat n + (Pos.to_nat n + 1))%nat by lia.
    rewrite !Nat.iter_add. reflexivity.
  - rewrite !IH, Pos2Nat.inj_xO.
    replace (2 * Pos.to_nat n)%nat with (Pos.to_nat n + Pos.to_nat n)%nat by lia.
    now rewrite Nat.iter_add.
  - reflexivity.
Qed.

Lemma shr_1_xO (p : positive) :
  shr_1 (Build_shr_record (Zpos (xO p)) false false) = Build_shr_record (Zpos p) false false.
Proof. reflexivity. Qed.

Lemma shr_trailing_zeros (n : nat) (p : positive) :
  Nat.iter n shr_1 (Build_shr_record (Zpos (Nat.iter n xO p)) false false)
  = Build_shr_record (Zpos p) false false.
Proof.
  revert p. induction n as [|n IH]; intros p; [reflexivity|].
  change (Nat.iter (S n) xO p) with (xO (Nat.iter n xO p)).
  rewrite Nat.iter_succ_r, shr_1_xO. apply IH.
Qed.

Lemma iter_xO_nat (k : positive) (p : positive) :
  Pos.iter xO p k = Nat.iter (Pos.to_nat k) xO p.
Proof. apply Pos2Nat.inj_iter. Qed.

Lemma shr_exact (k : positive) (p : positive) (e : Z) :
  shr (Build_shr_record (Zpos (Pos.iter xO p k)) false false) e (Zpos k)
  = (Build_shr_record (Zpos p) false false, (e + Zpos k)%Z).
Proof.
  unfold shr. now rewrite iter_pos_nat, iter_xO_nat, shr_trailing_zeros.
Qed.

Lemma digits2_pos_safe (p : positive) :
  (Zpos p < 2 ^ 53)%Z -> (Zpos (digits2_pos p) <= 53)%Z.
Proof.
  intros Hp. pose proof (digits2_pos_bound p) as [Hlo _].
  destruct (Z_le_gt_dec (Zpos (digits2_pos p)) 53) as [|Hgt]; [assumption|exfalso].
  assert (2 ^ 53 <= 2 ^ (Zpos (digits2_pos p) - 1))%Z by (apply Z.pow_le_mono_r; lia).
  lia.
Qed.

Lemma canonical_digits (p : positive) :
  (Zpos p < 2 ^ 53)%Z ->
  exists m e, canonical p = S754_finite false m e
              /\ Zpos (digits2_pos m) = 53%Z
              /\ e = (Zpos (digits2_pos p) - 53)%Z
              /\ Zpos m = (Zpos p * 2 ^ (- e))%Z.
Proof.
  intros Hp. pose proof (digits2_pos_safe p Hp) as Hd. unfold canonical.
  destruct (53 - Zpos (digits2_pos p))%Z as [|k|k] eqn:Hk; try lia.
  - exists p, 0%Z. repeat split; simpl; lia.
  - exists (Pos.iter xO p k), (Zneg k). repeat split.
    + rewrite digits2_pos_iter_xO. lia.
    + lia.
    + apply iter_xO_pow.
Qed.

Lemma binary_round_canonical (p : positive) :
  (Zpos p < 2 ^ 53)%Z -> binary_round prec emax false p 0 = canonical p.
Proof.
  intros Hp. pose proof (digits2_pos_safe p Hp) as Hd.
  unfold binary_round, shl_align, canonical.
  replace (fexp prec emax (Zpos (digits2_pos p) + 0) - 0)%Z
    with (Zpos (digits2_pos p) - 53)%Z
    by (unfold fexp, emin, prec, emax; lia).
  destruct (53 - Zpos (digits2_pos p))%Z as [|k|k] eqn:Hk; try lia.
  - replace (Zpos (digits2_pos p) - 53)%Z with 0%Z by lia.
    apply binary_round_aux_exact; lia.
  - replace (Zpos (digits2_pos p) - 53)%Z with (Zneg k) by lia.
    replace (fexp prec emax (Zpos (digits2_pos p) + 0)) with (Zneg k)
      by (unfold fexp, emin, prec, emax; lia).
    apply binary_round_aux_exact; [rewrite digits2_pos_iter_xO|]; lia.
Qed.

(** Rounding [r * 2^k] at exponent [-k] gives the canonical value of [r],
    whenever the shifted mantissa has at least 53 digits. *)
Lemma binary_round_shifted (s r : positive) (k : Z) :
  (0 <= k)%Z -> Zpos s = (Zpos r * 2 ^ k)%Z ->
  (Zpos r < 2 ^ 53)%Z -> (53 - Zpos (digits2_pos r) <= k)%Z -> (k <= 1074)%Z ->
  binary_round prec emax false s (- k) = canonical r.
Proof.
  intros Hk Hs Hr Hlow Hhigh.
  pose proof (digits2_pos_safe r Hr) as Hd.
  assert (Hds : Zpos (digits2_pos s) = (Zpos (digits2_pos r) + k)%Z).
  { destruct k as [|k|k]; [|rewrite <- iter_xO_pow in Hs|lia].
    - rewrite Z.mul_1_r in Hs. injection Hs as ->. lia.
    - injection Hs as ->. rewrite digits2_pos_iter_xO. lia. }
  unfold binary_round, shl_align.
  replace (fexp prec emax (Zpos (digits2_pos s) + - k) - - k)%Z
    with (Zpos (digits2_pos r) - 53 + k)%Z
    by (rewrite Hds; unfold fexp, emin, prec, emax; lia).
  destruct (Zpos (digits2_pos r) - 53 + k)%Z as [|n|n] eqn:Hn; try lia.
  - (* the mantissa already has 53 digits *)
    unfold canonical.
    destruct (53 - Zpos (digits2_pos r))%Z as [|j|j] eqn:Hj; try lia.
    + assert (k = 0%Z) by lia. subst k. rewrite Z.mul_1_r in Hs. injection Hs as ->.
      apply binary_round_aux_exact; lia.
    + assert (k = Zpos j) by lia. subst k. rewrite <- iter_xO_pow in Hs.
      injection Hs as ->. apply binary_round_aux_exact; [rewrite digits2_pos_iter_xO|]; lia.
  - (* [n] trailing zeros are shifted out *)
    destruct (canonical_digits r Hr) as (m & e & Hc & Hm53 & He & Hmv). rewrite Hc.
    assert (Hsm : s = Pos.iter xO m n).
    { apply Pos2Z.inj. rewrite iter_xO_pow, Hs, Hmv.
      rewrite <- Z.mul_assoc, <- Z.pow_add_r by lia. f_equal. f_equal. lia. }
    unfold binary_round_aux, shr_fexp. simpl Zdigits2.
    replace (fexp prec emax (Zpos (digits2_pos s) + - k) - - k)%Z with (Zpos n)
      by (rewrite Hds; unfold fexp, emin, prec, emax; lia).
    cbn [shr_record_of_loc]. rewrite Hsm, shr_exact.
    cbn [shr_m loc_of_shr_record round_nearest_even Zdigits2].
    rewrite Hm53.
    replace (fexp prec emax (53 + (- k + Zpos n)) - (- k + Zpos n))%Z with 0%Z
      by (unfold fexp, emin, prec, emax; lia).
    cbn [shr shr_m].
    replace (- k + Zpos n)%Z with e by lia.
    replace (e <=? emax - prec)%Z with true; [reflexivity|].
    symmetry. apply Z.leb_le. unfold emax, prec. lia.
Qed.

Lemma shl_align_value (m : positive) (e ez : Z) :
  (ez <= e)%Z -> Zpos (fst (shl_align m e ez)) = (Zpos m * 2 ^ (e - ez))%Z.
Proof.
  intros Hle. unfold shl_align.
  destruct (ez - e)%Z as [|d|d] eqn:Hd; try lia; cbn [fst].
  - replace (e - ez)%Z with 0%Z by lia. lia.
  - rewrite iter_xO_pow. f_equal. f_equal. lia.
Qed.

Lemma digits2_pos_le (p r : positive) :
  (Zpos p <= Zpos r)%Z -> (Zpos (digits2_pos p) <= Zpos (digits2_pos r))%Z.
Proof.
  intros Hle.
  pose proof (digits2_pos_bound p) as [Hp _]. pose proof (digits2_pos_bound r) as [_ Hr].
  assert (H : (2 ^ (Zpos (digits2_pos p) - 1) < 2 ^ Zpos (digits2_pos r))%Z) by lia.
  apply Z.pow_lt_mono_r_iff in H; lia.
Qed.

Lemma SF64add_canonical (p q : positive) :
  (Zpos (p + q) < 2 ^ 53)%Z ->
  SF64add (canonical p) (canonical q) = canonical (p + q).
Proof.
  intros Hsum.
  assert (Hp : (Zpos p < 2 ^ 53)%Z) by lia.
  assert (Hq : (Zpos q < 2 ^ 53)%Z) by lia.
  destruct (canonical_digits p Hp) as (mp & ep & -> & _ & Hep & Hmp).
  destruct (canonical_digits q Hq) as (mq & eq & -> & _ & Heq & Hmq).
  pose proof (digits2_pos_safe p Hp). pose proof (digits2_pos_safe q Hq).
  pose proof (digits2_pos_le p (p + q) ltac:(lia)).
  pose proof (digits2_pos_le q (p + q) ltac:(lia)).
  unfold SF64add, SFadd. cbn [cond_Zopp].
  set (ez := Z.min ep eq).
  rewrite <- Pos2Z.inj_add. cbn [binary_normalize].
  replace ez with (- - ez)%Z by lia.
  apply binary_round_shifted; try lia.
  rewrite Pos2Z.inj_add, !shl_align_value, Hmp, Hmq by lia.
  rewrite <- !Z.mul_assoc, <- !Z.pow_add_r by lia.
  replace (- ep + (ep - - - ez))%Z with (- ez)%Z by lia.
  replace (- eq + (eq - - - ez))%Z with (- ez)%Z by lia.
  rewrite Pos2Z.inj_add. ring.
Qed.

Lemma safe_bound (n : N) : isSafeInteger n = true -> (Z.of_N n < 2 ^ 53)%Z.
Proof.
  intros H. apply N.leb_le in H. unfold MAX_SAFE_INTEGER in H.
  assert (E : (2 ^ 53 = 9007199254740992)%Z) by reflexivity.
  rewrite E. lia.
Qed.

Lemma safe_pos_bound (p : positive) :
  isSafeInteger (Npos p) = true -> (Zpos p < 2 ^ 53)%Z.
Proof. intros H. exact (safe_bound (Npos p) H). Qed.

Lemma Number_spec (n : N) :
  isSafeInteger n = true ->
  Prim2SF (Number n) = binary_normalize prec emax (Z.of_N n) 0 false.
Proof.
  intros Hmax. pose proof (safe_bound n Hmax) as Hlt.
  unfold Number. rewrite of_uint63_spec, Uint63.of_Z_spec.
  rewrite Z.mod_small; [reflexivity|].
  assert (E : (2 ^ 53 = 9007199254740992)%Z) by reflexivity. rewrite E in Hlt.
  change wB with 9223372036854775808%Z. lia.
Qed.

Lemma Number_canonical (p : positive) :
  isSafeInteger (Npos p) = true -> Prim2SF (Number (Npos p)) = canonical p.
Proof.
  intros Hmax. rewrite (Number_spec _ Hmax).
  apply (binary_round_canonical p (safe_pos_bound p Hmax)).
Qed.

Lemma SF64add_zero_l (p : positive) :
  (Zpos p < 2 ^ 53)%Z -> SF64add (S754_zero false) (canonical p) = canonical p.
Proof.
  intros Hp. destruct (canonical_digits p Hp) as (m & e & -> & _). reflexivity.
Qed.

Lemma SF64add_zero_r (p : positive) :
  (Zpos p < 2 ^ 53)%Z -> SF64add (canonical p) (S754_zero false) = canonical p.
Proof.
  intros Hp. destruct (canonical_digits p Hp) as (m & e & -> & _). reflexivity.
Qed.

Lemma Number_add (a b : N) :
  isSafeInteger (a + b) = true -> (Number a + Number b)%float = Number (a + b).
Proof.
  intros Hsafe. apply Prim2SF_inj. rewrite FloatAxioms.add_spec.
  assert (Ha : isSafeInteger a = true) by (apply (isSafeInteger_le a (a + b)); [lia|assumption]).
  assert (Hb : isSafeInteger b = true) by (apply (isSafeInteger_le b (a + b)); [lia|assumption]).
  destruct a as [|p], b as [|q].
  - reflexivity.
  - rewrite N.add_0_l. change (Prim2SF (Number 0)) with (S754_zero false).
    rewrite (Number_canonical q Hb). apply SF64add_zero_l, safe_pos_bound, Hb.
  - rewrite N.add_0_r. change (Prim2SF (Number 0)) with (S754_zero false).
    rewrite (Number_canonical p Ha). apply SF64add_zero_r, safe_pos_bound, Ha.
  - change (N.pos p + N.pos q) with (N.pos (p + q)) in *.
    rewrite (Number_canonical p Ha), (Number_canonical q Hb), (Number_canonical _ Hsafe).
    apply SF64add_canonical, safe_pos_bound, Hsafe.
Qed.

(** * The typed records inside the JavaScript model *)

Lemma Number_class (n : N) :
  isSafeInteger n = true ->
  Prim2SF (Number n) = S754_zero false \/ exists m e, Prim2SF (Number n) = S754_finite false m e.
Proof.
  intros Hsafe. destruct n as [|p]; [now left|right].
  destruct (canonical_digits p (safe_pos_bound p Hsafe)) as (m & e & Hc & _).
  exists m, e. now rewrite (Number_canonical p Hsafe).
Qed.

Lemma is_finite_Number (n : N) :
  isSafeInteger n = true -> PrimFloat.is_finite (Number n) = true.
Proof.
  intros Hsafe. unfold PrimFloat.is_finite, PrimFloat.is_nan, PrimFloat.is_infinity.
  rewrite !FloatAxioms.eqb_spec, FloatAxioms.abs_spec.
  destruct (Number_class n Hsafe) as [->|(m & e & ->)]; [reflexivity|].
  cbn [SFabs]. rewrite SFeqb_finite_refl. reflexivity.
Qed.

Lemma Number_eqb_zero (n : N) :
  isSafeInteger n = true -> PrimFloat.eqb (Number n) 0 = (n =? 0).
Proof.
  intros Hsafe. destruct n as [|p]; [reflexivity|].
  rewrite FloatAxioms.eqb_spec, Prim2SF_zero.
  destruct (Number_class _ Hsafe) as [H|(m & e & ->)]; [|reflexivity].
  exfalso. rewrite (Number_canonical p Hsafe) in H.
  destruct (canonical_digits p (safe_pos_bound p Hsafe)) as (m & e & Hc & _). congruence.
Qed.

Lemma jsonValue_Number (n : N) :
  isSafeInteger n = true -> Js.jsonValue (Js.Num (Number n)) = Js.Num (Number n).
Proof.
  intros Hsafe. unfold Js.jsonValue.
  rewrite (is_finite_Number n Hsafe), (Number_eqb_zero n Hsafe).
  destruct n as [|p]; reflexivity.
Qed.

Lemma safeCounter_spec (c : Counter) :
  safeCounter c = true <-> isSafeInteger (found c) = true /\ isSafeInteger (hit c) = true.
Proof. unfold safeCounter. apply andb_true_iff. Qed.

Lemma jsonCounter_ofCounter (c : Counter) :
  safeCounter c = true -> Js.jsonCounter (ofCounter c) = ofCounter c.
Proof.
  intros [Hf Hh]%safeCounter_spec. unfold Js.jsonCounter, ofCounter.
  cbn [Js.found Js.hit]. now rewrite !jsonValue_Number.
Qed.

Lemma addPair_ofCounter (c d : Counter) :
  safeCounter {| found := found c + found d; hit := hit c + hit d |} = true ->
  Js.addPair (Some (ofCounter c)) (Some (ofCounter d))
  = Js.Ok (ofCounter {| found := found c + found d; hit := hit c + hit d |}).
Proof.
  intros [Hf Hh]%safeCounter_spec. cbn in Hf, Hh.
  unfold Js.addPair, ofCounter, Js.add.
  cbn [Js.read mbind Js.result_bind Js.found Js.hit Js.toNumber].
  now rewrite !Number_add.
Qed.

Lemma safeCounter_add_l (c d : Counter) :
  safeCounter {| found := found c + found d; hit := hit c + hit d |} = true ->
  safeCounter c = true.
Proof.
  rewrite !safeCounter_spec. cbn. intros [Hf Hh].
  split; [apply (isSafeInteger_le _ (found c + found d))
         |apply (isSafeInteger_le _ (hit c + hit d))]; (lia || assumption).
Qed.

Lemma safeRecord_spec (r : LcovFile) :
  safeRecord r = true
  <-> safeCounter (lines r) = true /\ safeCounter (functions r) = true
      /\ safeCounter (branches r) = true.
Proof. unfold safeRecord. rewrite !andb_true_iff. tauto. Qed.

Lemma callback_ofRecord (t f : LcovFile) :
  safeRecord (addCounters t f) = true ->
  Js.callback (ofRecord t) (ofRecord f) = Js.Ok (ofRecord (addCounters t f)).
Proof.
  intros (Hl & Hf & Hb)%safeRecord_spec. cbn in Hl, Hf, Hb.
  unfold Js.callback, Js.jsonRecord, ofRecord.
  cbn [Js.lines Js.functions Js.branches Js.file fmap option_fmap option_map].
  rewrite !jsonCounter_ofCounter by (eapply safeCounter_add_l; eassumption).
  rewrite !addPair_ofCounter by assumption. reflexivity.
Qed.

Lemma safeRecord_addCounters_l (t f : LcovFile) :
  safeRecord (addCounters t f) = true -> safeRecord t = true.
Proof.
  rewrite !safeRecord_spec. cbn. intros (Hl & Hf & Hb).
  repeat split; eapply safeCounter_add_l; eassumption.
Qed.

Lemma safeRecord_fold_left (rest : list LcovFile) (acc : LcovFile) :
  safeRecord (fold_left addCounters rest acc) = true -> safeRecord acc = true.
Proof.
  revert acc. induction rest as [|r rest IH]; intros acc; cbn [fold_left]; [trivial|].
  intros H. apply IH in H. now apply safeRecord_addCounters_l in H.
Qed.

Lemma reduce_ofRecord (rest : list LcovFile) (acc : LcovFile) :
  safeRecord (fold_left addCounters rest acc) = true ->
  Js.reduce (map ofRecord rest) (ofRecord acc)
  = Js.Ok (ofRecord (fold_left addCounters rest acc)).
Proof.
  revert acc. induction rest as [|r rest IH]; intros acc Hsafe; [reflexivity|].
  cbn [map Js.reduce fold_left] in *.
  rewrite callback_ofRecord by (now apply safeRecord_fold_left in Hsafe).
  cbn. now apply IH.
Qed.

Lemma filterFiles_ofRecord (data : list LcovFile) (files : option (gset string)) :
  Js.filterFiles (map ofRecord data) files = map ofRecord (filterFiles data files).
Proof.
  destruct files as [fs|]; [|reflexivity]. cbn.
  induction data as [|r data IH]; [reflexivity|]. cbn.
  destruct (has fs (file r)); cbn; now rewrite IH.
Qed.

Lemma safeTotals_aggregate (first : LcovFile) (rest : list LcovFile) :
  safeTotals (first :: rest) = true ->
  safeRecord (fold_left addCounters rest first) = true.
Proof.
  pose proof (fold_left_addCounters rest first) as H. cbn [counters] in H.
  set (agg := fold_left addCounters rest first) in *.
  assert (H' : totals (first :: rest) = (lines agg, functions agg, branches agg))
    by congruence.
  unfold safeTotals. rewrite H'. trivial.
Qed.

(** Within the safe integers the additions of doubles are the exact sums:
    [sumLcov] on the parser's records does not throw and returns the record
    of the typed aggregate. *)
Lemma sumLcov_ofRecord (data : list LcovFile) (files : option (gset string)) :
  safeTotals (filterFiles data files) = true ->
  Js.sumLcov (map ofRecord data) files = Js.Ok (ofRecord <$> sumLcov data files).
Proof.
  intros Hsafe. unfold Js.sumLcov, sumLcov. rewrite filterFiles_ofRecord.
  destruct (filterFiles data files) as [|first rest]; [reflexivity|].
  cbn [map]. rewrite reduce_ofRecord by now apply safeTotals_aggregate.
  reflexivity.
Qed.

Lemma counters_ofRecord (agg agg' : option LcovFile) :
  counters agg = counters agg' ->
  Js.counters (ofRecord <$> agg) = Js.counters (ofRecord <$> agg').
Proof.
  destruct agg as [d|], agg' as [d'|]; cbn; try discriminate; [|reflexivity].
  intros [= -> -> ->]. reflexivity.
Qed.

Lemma safeTotals_Permutation (l l' : list LcovFile) :
  Permutation l l' -> safeTotals l = safeTotals l'.
Proof. intros H. unfold safeTotals. now rewrite (totals_Permutation l l' H). Qed.

Lemma total_app (f : LcovFile -> N) (l1 l2 : list LcovFile) :
  total f (l1 ++ l2) = total f l1 + total f l2.
Proof. induction l1 as [|r l1 IH]; simpl; [reflexivity|]. rewrite IH. lia. Qed.

Lemma safeTotals_spec (l : list LcovFile) :
  safeTotals l = true <->
  (isSafeInteger (total (fun r => found (lines r)) l) = true
   /\ isSafeInteger (total (fun r => hit (lines r)) l) = true)
  /\ (isSafeInteger (total (fun r => found (functions r)) l) = true
      /\ isSafeInteger (total (fun r => hit (functions r)) l) = true)
  /\ (isSafeInteger (total (fun r => found (branches r)) l) = true
      /\ isSafeInteger (total (fun r => hit (branches r)) l) = true).
Proof.
  unfold safeTotals, totals, safeCounter. cbn. rewrite !andb_true_iff. tauto.
Qed.

Lemma safeTotals_le (l k : list LcovFile) :
  (forall f, total f l <= total f k) -> safeTotals k = true -> safeTotals l = true.
Proof.
  intros Hle. rewrite !safeTotals_spec. intros ((H1 & H2) & (H3 & H4) & (H5 & H6)).
  repeat split; eapply isSafeInteger_le; eauto.
Qed.

Lemma safeTotals_app (l1 l2 : list LcovFile) :
  safeTotals (l1 ++ l2) = true -> safeTotals l1 = true /\ safeTotals l2 = true.
Proof.
  intros H. split; apply (safeTotals_le _ (l1 ++ l2)); trivial;
    intros f; rewrite total_app; lia.
Qed.

(** C4, as stated, fails: the counters are doubles and their additions round
    above 2^53, so the sum can depend on the order.  With [lines.found] of
    2^53-1, 2 and 1 the aggregate holds 9007199254740992 in that order and
    9007199254740994 when the first record comes last. *)
Lemma sumLcov_order_counterexample :
  ~ (forall (data data' : list Js.record) (files : option (gset string))
            (agg agg' : option Js.record),
       Permutation data data' ->
       Js.sumLcov data files = Js.Ok agg ->
       Js.sumLcov data' files = Js.Ok agg' ->
       Js.counters agg = Js.counters agg').
Proof.
  intros H.
  assert (P : Permutation bigRecords (tl bigRecords ++ firstn 1 bigRecords))
    by apply Permutation_cons_append.
  eapply (H _ _ None) in P; [|vm_compute; reflexivity|vm_compute; reflexivity].
  apply (f_equal (fun c => match c with
                           | Some (Some l, _, _) => Prim2SF (Js.toNumber (Js.found l))
                           | _ => S754_nan
                           end)) in P.
  vm_compute in P. discriminate.
Qed.

(** C4, amended.  For records whose counts are non-negative integers with the
    six totals of the kept records within the safe integers, permuting the
    records changes none of the six counters of the aggregate, with or without
    a filter set: in either order [sumLcov] returns the exact sums. *)
Theorem sumLcov_order_independent (data data' : list LcovFile)
    (files : option (gset string)) :
  Permutation data data' ->
  safeTotals (filterFiles data files) = true ->
  exists agg agg',
    Js.sumLcov (map ofRecord data) files = Js.Ok agg
    /\ Js.sumLcov (map ofRecord data') files = Js.Ok agg'
    /\ Js.counters agg = Js.counters agg'
    /\ Js.counters agg
       = Js.counters (ofRecord <$> match filterFiles data files with
                                   | [] => None
                                   | first :: _ =>
                                       let '(l, f, b) := totals (filterFiles data files) in
                                       Some (mkLcovFile (file first) l f b)
                                   end).
Proof.
  intros Hperm Hsafe.
  pose proof (filterFiles_Permutation files _ _ Hperm) as Hkept.
  assert (Hsafe' : safeTotals (filterFiles data' files) = true)
    by (rewrite <- (safeTotals_Permutation _ _ Hkept); exact Hsafe).
  exists (ofRecord <$> sumLcov data files), (ofRecord <$> sumLcov data' files).
  split; [now apply sumLcov_ofRecord|]. split; [now apply sumLcov_ofRecord|].
  split.
  - apply counters_ofRecord, sumLcov_Permutation_exact, Hperm.
  - apply counters_ofRecord. rewrite sumLcov_counters.
    destruct (filterFiles data files) as [|first rest]; [reflexivity|].
    cbn [counters]. destruct (totals (first :: rest)) as [[l f] b]. reflexivity.
Qed.

Lemma sumLcov_order_independent_witness :
  safeTotals (filterFiles sampleData None) = true
  /\ exists agg agg',
       Js.sumLcov (map ofRecord sampleData) None = Js.Ok agg
       /\ Js.sumLcov (map ofRecord (rev sampleData)) None = Js.Ok agg'
       /\ Js.counters agg = Js.counters agg'
       /\ Js.counters agg
          = Js.counters (ofRecord <$> match filterFiles sampleData None with
                                      | [] => None
                                      | first :: _ =>
                                          let '(l, f, b) := totals (filterFiles sampleData None) in
                                          Some (mkLcovFile (file first) l f b)
                                      end).
Proof.
  split; [reflexivity|].
  apply (sumLcov_order_independent sampleData (rev sampleData) None).
  - apply Permutation_rev.
  - reflexivity.
Defined.

(** X1.  For records whose counts are non-negative integers with the six
    totals of the kept records within the safe integers, summing a report
    made of two parts gives what the callback of [reduce] makes of the
    aggregates of the two parts; a part of which no record is kept
    contributes nothing. *)
Theorem sumLcov_app_safe (l1 l2 : list LcovFile) (files : option (gset string)) :
  safeTotals (filterFiles (l1 ++ l2) files) = true ->
  exists a b,
    Js.sumLcov (map ofRecord l1) files = Js.Ok a
    /\ Js.sumLcov (map ofRecord l2) files = Js.Ok b
    /\ Js.sumLcov (map ofRecord (l1 ++ l2)) files
       = match a, b with
         | Some x, Some y => sum ← Js.callback x y; Js.Ok (Some sum)
         | Some x, None => Js.Ok (Some x)
         | None, other => Js.Ok other
         end.
Proof.
  intros Hsafe. pose proof Hsafe as Hparts.
  rewrite filterFiles_app in Hparts. apply safeTotals_app in Hparts as [H1 H2].
  exists (ofRecord <$> sumLcov l1 files), (ofRecord <$> sumLcov l2 files).
  split; [now apply sumLcov_ofRecord|]. split; [now apply sumLcov_ofRecord|].
  rewrite (sumLcov_ofRecord _ _ Hsafe), sumLcov_app_exact.
  destruct (sumLcov l1 files) as [x|] eqn:Hx, (sumLcov l2 files) as [y|] eqn:Hy;
    try reflexivity.
  cbn [fmap option_fmap option_map]. rewrite callback_ofRecord; [reflexivity|].
  (* the counters of [addCounters x y] are the totals of the whole *)
  assert (Hall : sumLcov (l1 ++ l2) files = Some (addCounters x y))
    by (now rewrite sumLcov_app_exact, Hx, Hy).
  destruct (sumLcov_totals _ _ _ Hall) as [Htot _].
  unfold safeTotals in Hsafe. rewrite <- Htot in Hsafe. exact Hsafe.
Qed.

Lemma sumLcov_app_safe_witness :
  exists a b,
    Js.sumLcov (map ofRecord [hd emptyRecord sampleData]) None = Js.Ok a
    /\ Js.sumLcov (map ofRecord (tl sampleData)) None = Js.Ok b
    /\ Js.sumLcov (map ofRecord ([hd emptyRecord sampleData] ++ tl sampleData)) None
       = match a, b with
         | Some x, Some y => sum ← Js.callback x y; Js.Ok (Some sum)
         | Some x, None => Js.Ok (Some x)
         | None, other => Js.Ok other
         end.
Proof.
  apply (sumLcov_app_safe [hd emptyRecord sampleData] (tl sampleData) None).
  reflexivity.
Defined.

Lemma SFleb_refl (x : spec_float) : SFeqb x x = true -> SFleb x x = true.
Proof.
  unfold SFeqb, SFleb. destruct (SFcompare x x) as [[]|]; try discriminate. reflexivity.
Qed.

Lemma leb_refl (m : float) : PrimFloat.is_nan m = false -> (m <=? m)%float = true.
Proof.
  unfold PrimFloat.is_nan. rewrite negb_false_iff, FloatAxioms.eqb_spec, FloatAxioms.leb_spec.
  apply SFleb_refl.
Qed.

Lemma SFltb_not_leb (x y : spec_float) : SFltb x y = true -> SFleb y x = false.
Proof.
  unfold SFltb, SFleb, SFcompare.
  destruct x as [[]|[]| |[] mx ex], y as [[]|[]| |[] my ey];
    try discriminate; try reflexivity;
    rewrite ?Pos.compare_cont_spec; unfold Pos.switch_Eq;
    repeat match goal with
           | |- context [Z.compare ?a ?b] => destruct (Z.compare_spec a b)
           | |- context [Pos.compare ?a ?b] => destruct (Pos.compare_spec a b)
           end;
    simpl; try discriminate; try reflexivity; intros _; exfalso; lia.
Qed.

Lemma ltb_not_leb (x y : float) : (x <? y)%float = true -> (y <=? x)%float = false.
Proof. rewrite FloatAxioms.ltb_spec, FloatAxioms.leb_spec. apply SFltb_not_leb. Qed.

(** C8.  A coverage equal to the minimum passes, whatever their common value
    (the comparison is [>=]): as an aggregate, as a row of the file table and
    in the individual check; a coverage strictly below the minimum fails.  In
    particular a record with [hit = 75] and [found = 100] has line coverage
    exactly [75] and passes the minimum [75]. *)
Theorem threshold_boundary (path : string) (fns brs : Counter) :
  let d := mkLcovFile path (mkCounter 100 75) fns brs in
  (calculateLineCoverage (lines d) = 75%float
   /\ isPassed (Some d) 75 = true
   /\ meetsMinimum d 75 = true
   /\ filePassed d 75 = true
   /\ checkAllIndividualFilesPassed (Some [d]) 75 = true)
  /\ (forall (r : LcovFile) (m : float),
        PrimFloat.is_nan m = false ->
        calculateLineCoverage (lines r) = m ->
        isPassed (Some r) m = true
        /\ meetsMinimum r m = true
        /\ filePassed r m = true
        /\ checkAllIndividualFilesPassed (Some [r]) m = true)
  /\ (forall (r : LcovFile) (m : float),
        (calculateLineCoverage (lines r) <? m)%float = true ->
        isPassed (Some r) m = false
        /\ meetsMinimum r m = false).
Proof.
  split; [repeat split|]. split.
  - intros r m Hm Hcov.
    assert (Hmeets : meetsMinimum r m = true)
      by (unfold meetsMinimum, geb; rewrite Hcov; now apply leb_refl).
    assert (Hrow : filePassed r m = true)
      by (unfold filePassed; destruct (truthy m); [exact Hmeets|reflexivity]).
    split; [now rewrite isPassed_Some|]. split; [exact Hmeets|]. split; [exact Hrow|].
    rewrite checkAll_filePassed. cbn. now rewrite Hrow.
  - intros r m Hlt. rewrite isPassed_Some.
    assert (meetsMinimum r m = false) by (now apply ltb_not_leb). auto.
Qed.

(** * What the evaluation can throw *)


Lemma read_Some (property : string) (c : Js.counter) :
  Js.read property (Some c) = Js.Ok c.
Proof. reflexivity. Qed.

















(** * The typed evaluation inside the JavaScript model *)

Lemma isPassed_ofRecord (agg : option LcovFile) (m : float) :
  (forall d, agg = Some d -> isSafeInteger (found (lines d)) = true) ->
  Js.isPassed (ofRecord <$> agg) m = Js.Ok (isPassed agg m).
Proof.
  intros H. destruct agg as [d|]; [|reflexivity].
  cbn [fmap option_fmap option_map Js.isPassed ofRecord Js.lines Js.read mbind
       Js.result_bind ofCounter Js.found Js.isZero].
  rewrite (Number_eqb_zero _ (H d eq_refl)). reflexivity.
Qed.

Lemma calculateLineCoverage_ofRecord (d : LcovFile) :
  isSafeInteger (found (lines d)) = true ->
  Js.calculateLineCoverage (Js.lines (ofRecord d)) = Js.Ok (calculateLineCoverage (lines d)).
Proof.
  intros H.
  cbn [Js.calculateLineCoverage ofRecord Js.lines Js.read mbind Js.result_bind ofCounter
       Js.found Js.isZero].
  rewrite (Number_eqb_zero _ H). reflexivity.
Qed.

Lemma every_ofRecord (fs : list LcovFile) (m : float) :
  (forall r, In r fs -> isSafeInteger (found (lines r)) = true) ->
  Js.every (map ofRecord fs) m
  = Js.Ok (forallb (fun f => geb (calculateLineCoverage (lines f)) m) fs).
Proof.
  induction fs as [|f fs IH]; intros H; [reflexivity|].
  cbn [map Js.every forallb].
  rewrite calculateLineCoverage_ofRecord by (apply H; now left).
  cbn [mbind Js.result_bind].
  destruct (geb _ m); [|reflexivity]. apply IH. intros r Hr. apply H. now right.
Qed.

Lemma sumLcov_safe_found (data : list LcovFile) (files : option (gset string)) :
  safeTotals (filterFiles data files) = true ->
  forall d, sumLcov data files = Some d -> isSafeInteger (found (lines d)) = true.
Proof.
  intros Hsafe d Hd. destruct (sumLcov_totals _ _ _ Hd) as [Htot _].
  unfold safeTotals in Hsafe. rewrite <- Htot in Hsafe.
  apply andb_true_iff in Hsafe as [Hsafe _]. apply andb_true_iff in Hsafe as [Hsafe _].
  now apply safeCounter_spec in Hsafe as [? _].
Qed.

Lemma safeTotals_filter (data : list LcovFile) (files : option (gset string)) :
  safeTotals data = true -> safeTotals (filterFiles data files) = true.
Proof.
  apply safeTotals_le. intros f.
  destruct files as [fs|]; cbn [filterFiles]; [apply total_filter_le|apply N.le_refl].
Qed.

Lemma safeTotals_In (data : list LcovFile) (r : LcovFile) :
  safeTotals data = true -> In r data -> isSafeInteger (found (lines r)) = true.
Proof.
  intros ((H & _) & _)%safeTotals_spec Hin.
  apply (isSafeInteger_le _ _ (total_In_le (fun r => found (lines r)) data r Hin) H).
Qed.

(** X22.  On the records the parser builds from non-negative integer counts
    whose six totals are safe integers, the evaluation as the runtime
    performs it (additions of doubles, property reads that may throw) does
    not throw and computes the aggregates and the booleans of the typed
    evaluation. *)
Theorem evaluate_ofRecord (data : list LcovFile) (changedFiles : gset string)
    (allFilesInput changedFilesInput : float) :
  safeTotals data = true ->
  let ev := evaluate data changedFiles allFilesInput changedFilesInput in
  Js.evaluate (map ofRecord data) changedFiles allFilesInput changedFilesInput
  = Js.Ok {| Js.allFilesLcov := ofRecord <$> allFilesLcov ev;
             Js.allFilesPassed := allFilesPassed ev;
             Js.changedFilesLcov := ofRecord <$> changedFilesLcov ev;
             Js.hasChangedFiles := hasChangedFiles ev;
             Js.changedFilesPassed := changedFilesPassed ev;
             Js.changedFilesData := map ofRecord (changedFilesData ev);
             Js.allIndividualFilesPassed := allIndividualFilesPassed ev;
             Js.bothPassed := bothPassed ev |}.
Proof.
  intros Hsafe ev. subst ev. unfold Js.evaluate, evaluate.
  cbn [allFilesLcov allFilesPassed changedFilesLcov hasChangedFiles changedFilesPassed
       changedFilesData allIndividualFilesPassed bothPassed].
  pose proof (safeTotals_filter data None Hsafe) as Hall.
  pose proof (safeTotals_filter data (Some changedFiles) Hsafe) as Hch.
  rewrite (sumLcov_ofRecord data None Hall). cbn [mbind Js.result_bind].
  rewrite (isPassed_ofRecord _ _ (sumLcov_safe_found data None Hall)).
  cbn [mbind Js.result_bind].
  rewrite (sumLcov_ofRecord data (Some changedFiles) Hch). cbn [mbind Js.result_bind].
  rewrite (isPassed_ofRecord _ _ (sumLcov_safe_found data (Some changedFiles) Hch)).
  cbn [mbind Js.result_bind].
  pose proof (filterFiles_ofRecord data (Some changedFiles)) as Hf.
  cbn [Js.filterFiles filterFiles] in Hf. rewrite Hf.
  assert (Hcheck :
    Js.checkAllIndividualFilesPassed
      (Some (map ofRecord (List.filter (fun item => has changedFiles (file item)) data)))
      (orZero changedFilesInput)
    = Js.Ok (checkAllIndividualFilesPassed
               (Some (List.filter (fun item => has changedFiles (file item)) data))
               (orZero changedFilesInput))).
  { unfold Js.checkAllIndividualFilesPassed, checkAllIndividualFilesPassed.
    rewrite length_map. destruct (_ || _); [reflexivity|].
    apply every_ofRecord. intros r [Hr _]%filter_In. now apply (safeTotals_In data). }
  rewrite Hcheck. cbn [mbind Js.result_bind].
  assert (Hhas : bool_decide (ofRecord <$> sumLcov data (Some changedFiles) <> None)
                 = bool_decide (sumLcov data (Some changedFiles) <> None))
    by (destruct (sumLcov data (Some changedFiles)); reflexivity).
  rewrite Hhas. reflexivity.
Qed.

Lemma evaluate_ofRecord_witness :
  exists ev, Js.evaluate (map ofRecord sampleData) sampleChanged 60 60 = Js.Ok ev
             /\ Js.bothPassed ev = false.
Proof.
  eexists. split; [apply (evaluate_ofRecord sampleData sampleChanged 60 60); reflexivity|].
  reflexivity.
Defined.
